(** * Semicircle constraint scripts: numeric kernels and their properties

    A shallow embedding of the numeric post-processing found in

    - [tests/Simulations/test_semicircle_constraint.py]
    - [tests/Simulations/test_optimal_operating_point.py]
    - [tests/Simulations/test_barren_plateau_geometry.py]
    - [tests/Real IonQ/azure_quantum_tests.py]
    - [generate_figures.py]

    The scripts compute with IEEE-754 binary64 numbers.  Every kernel is
    written once, over an interface of arithmetic operations, and is read
    at two instances: the real numbers (exact arithmetic, used for the
    statements quantified over all inputs) and the kernel's primitive
    binary64 floats (used to evaluate the code bit for bit on concrete
    inputs, including NaN and signed zero). *)

From Stdlib Require Import String DecimalString Reals Lra Lia ZArith QArith Qreals Bool List Sorted.
From Stdlib Require Floats.
Abbreviation float := PrimFloat.float.
Import ListNotations.

Set Implicit Arguments.

(** ** Arithmetic interface *)

(** The operations the scripts use on Python/NumPy floats.  [lit] reads a
    decimal literal given as a fraction; [ltb] is Python's [<]. *)
Class PyFloat (F : Type) : Type := {
  lit   : Q -> F;
  fadd  : F -> F -> F;
  fsub  : F -> F -> F;
  fmul  : F -> F -> F;
  fdiv  : F -> F -> F;
  fsqrt : F -> F;
  fabs  : F -> F;
  ltb   : F -> F -> bool;
  feqb  : F -> F -> bool
}.

Declare Scope py_scope.
Delimit Scope py_scope with py.
Infix "+" := fadd : py_scope.
Infix "-" := fsub : py_scope.
Infix "*" := fmul : py_scope.
Infix "/" := fdiv : py_scope.
Infix "<?" := ltb : py_scope.
Notation "x >? y" := (ltb y x) : py_scope.

(** *** Exact instance *)

(** The real numbers with their total operations: there is no rounding,
    [x / 0] is [0] and the square root of a negative number is [0], where
    binary64 gives an infinity or NaN.  Statements at this instance are
    about exact arithmetic; what the doubles do is read at the binary64
    instance below. *)

Definition Rltb (x y : R) : bool := if Rlt_dec x y then true else false.
Definition Reqb (x y : R) : bool := if Req_dec_T x y then true else false.

#[export] Instance PyFloat_R : PyFloat R := {
  lit   := Q2R;
  fadd  := Rplus;
  fsub  := Rminus;
  fmul  := Rmult;
  fdiv  := Rdiv;
  fsqrt := R_sqrt.sqrt;
  fabs  := Rabs;
  ltb   := Rltb;
  feqb  := Reqb
}.

(** *** Binary64 instance *)

(** Integers are taken through the 63-bit machine integers, so the
    conversion is Python's for magnitudes below [2^63]. *)

Definition float_of_Z (z : Z) : float :=
  match z with
  | Z0 => PrimFloat.of_uint63 (Uint63.of_Z 0)
  | Zpos _ => PrimFloat.of_uint63 (Uint63.of_Z z)
  | Zneg p => PrimFloat.opp (PrimFloat.of_uint63 (Uint63.of_Z (Zpos p)))
  end.

(** A decimal literal [n / d] with [n] and [d] below [2^53] is read by one
    correctly rounded division, which is the double Python's parser
    produces for it. *)
Definition float_of_Q (q : Q) : float :=
  PrimFloat.div (float_of_Z (Qnum q)) (float_of_Z (Zpos (Qden q))).

#[export] Instance PyFloat_binary64 : PyFloat float := {
  lit   := float_of_Q;
  fadd  := PrimFloat.add;
  fsub  := PrimFloat.sub;
  fmul  := PrimFloat.mul;
  fdiv  := PrimFloat.div;
  fsqrt := PrimFloat.sqrt;
  fabs  := PrimFloat.abs;
  ltb   := PrimFloat.ltb;
  feqb  := PrimFloat.eqb
}.

(** ** Python exceptions *)

(** [str(n)] for an integer. *)
Definition string_of_Z (n : Z) : string :=
  NilZero.string_of_int (Z.to_int n).

Inductive exn_class : Type :=
| ValueError
| FileNotFoundError
| ZeroDivisionError
| RuntimeError
| KeyboardInterrupt.

(** [except Exception] catches the subclasses of [Exception] only. *)
Definition is_Exception (c : exn_class) : bool :=
  match c with
  | KeyboardInterrupt => false
  | _ => true
  end.

Record exn : Type := mkExn { exn_kind : exn_class; exn_msg : string }.

Inductive outcome (A : Type) : Type :=
| Return (a : A)
| Raise (e : exn).
Arguments Return {A} a.
Arguments Raise {A} e.

Definition bind {A B : Type} (m : outcome A) (k : A -> outcome B) : outcome B :=
  match m with
  | Return a => k a
  | Raise e => Raise e
  end.

Notation "x <- m ;; k" := (bind m (fun x => k))
  (at level 61, m at next level, right associativity).

(** ** Kernels shared by the scripts *)

Section Kernels.
Context {F : Type} `{PyFloat F}.
Local Open Scope py_scope.

(** [float(n)] for a length or a count. *)
Definition of_nat (n : nat) : F := lit (inject_Z (Z.of_nat n)).

(** [x ** 2], as the product [x * x]; on binary64 the power function
    may differ from it in the last place. *)
Definition sq (x : F) : F := x * x.

(** [x ** n] for an integer exponent, by repeated multiplication; on
    binary64 the power function may differ from it in the last place. *)
Fixpoint fpow (x : F) (n : nat) : F :=
  match n with
  | O => lit 1
  | S k => x * fpow x k
  end.

(** Python's two-argument [max(a, b)]: the first argument is kept unless
    the second compares greater. *)
Definition py_max2 (a b : F) : F := if b >? a then b else a.

(** [np.clip(x, lo, hi)] *)
Definition np_clip (x lo hi : F) : F :=
  if x <? lo then lo else if hi <? x then hi else x.

(** Python's [max(xs)] on a list: [ValueError] on the empty list. *)
Definition py_max (xs : list F) : outcome F :=
  match xs with
  | [] => Raise (mkExn ValueError "max() arg is an empty sequence")
  | x :: rest => Return (fold_left py_max2 rest x)
  end.

(** Python's [min(xs)] on a list. *)
Definition py_min (xs : list F) : outcome F :=
  match xs with
  | [] => Raise (mkExn ValueError "min() arg is an empty sequence")
  | x :: rest => Return (fold_left (fun m y => if y <? m then y else m) rest x)
  end.

(** Python's checked true division. *)
Definition py_div (x y : F) : outcome F :=
  if feqb y (lit 0)
  then Raise (mkExn ZeroDivisionError "float division by zero")
  else Return (x / y).

(** [np.sum], accumulated from the left.  NumPy sums arrays of eight or
    more elements in blocks, so on binary64 this is NumPy's result bit
    for bit only for shorter lists; on the reals the order is
    immaterial. *)
Definition fsum (xs : list F) : F := fold_left fadd xs (lit 0).

(** [np.mean]: the sum divided by the length, with NumPy's unchecked
    division (an empty array gives [0.0 / 0]). *)
Definition np_mean (xs : list F) : F := fsum xs / of_nat (length xs).

(** [np.sqrt(np.mean(np.array(xs)**2))] *)
Definition rms (xs : list F) : F := fsqrt (np_mean (map sq xs)).

(** [np.std] *)
Definition np_std (xs : list F) : F :=
  let m := np_mean xs in
  fsqrt (np_mean (map (fun x => sq (fabs (x - m))) xs)).

(** [np.linspace(start, stop, num)] with the end point included. *)
Definition linspace (start stop : F) (num : nat) : list F :=
  match num with
  | O => []
  | 1%nat => [start]
  | S div =>
      let step := (stop - start) / of_nat div in
      map (fun i => of_nat i * step + start) (seq 0 div) ++ [stop]
  end.

(** [enumerate(xs)] *)
Definition enumerate {A : Type} (xs : list A) : list (nat * A) :=
  combine (seq 0 (length xs)) xs.

(** [np.sqrt(q * (1 - q))]: the theoretical correlation, as every script
    computes it. *)
Definition c_qc (q : F) : F := fsqrt (q * (lit 1 - q)).

(** *** tests/Simulations/test_semicircle_constraint.py *)

(** Lines 45-49 and 62-66: the body of the two sampling loops, from the
    noisy probability to the absolute residual that is appended. *)
Definition measured_residual (q_raw : F) : F :=
  let q := np_clip q_raw (lit 0.001) (lit 0.999) in
  let c := fsqrt (py_max2 (lit 0) (q * (lit 1 - q))) in
  fabs (sq (q - lit 0.5) + sq c - lit 0.25).

(** Lines 39-49; [noise i] is the draw [np.random.normal(0, 0.005)] of
    iteration [i]. *)
Definition residuals_uniform (noise : nat -> F) : list F :=
  map (fun iq => measured_residual (snd iq + noise (fst iq)))
      (enumerate (linspace (lit 0.01) (lit 0.99) 50)).

(** Lines 58-66; an element of [q_drawn] is the value
    [np.sin(theta/2)**2 + np.random.normal(0, 0.005)] of one iteration
    (the script draws 100 of them). *)
Definition residuals_random (q_drawn : list F) : list F :=
  map measured_residual q_drawn.

(** Lines 83-84: the signed residual of the edge cases. *)
Definition edge_residual (q : F) : F :=
  sq (q - lit 0.5) + sq (c_qc q) - lit 0.25.

Definition edge_cases : list F := [lit 0.001; lit 0.5; lit 0.999].

(** Lines 95-97: the radius of the point [(q - 0.5, C_qc)]. *)
Definition radius (q : F) : F :=
  let x := q - lit 0.5 in
  let y := fsqrt (q * (lit 1 - q)) in
  fsqrt (sq x + sq y).

Definition radii : list F := map radius (linspace (lit 0.01) (lit 0.99) 100).

(** Lines 106-109: the verdict. *)
Definition pass_criteria (rms_uniform rms_random max_random mean_radius : F) : bool :=
  (rms_uniform <? lit 0.001) &&
  (rms_random <? lit 0.001) &&
  (max_random <? lit 0.01) &&
  (fabs (mean_radius - lit 0.5) <? lit 0.001).

(** The dictionary the test returns. *)
Record test26_result : Type := mkTest26 {
  passed26 : bool;
  rms_uniform26 : F;
  rms_random26 : F;
  max_residual26 : F;
  mean_radius26 : F;
  radius_std26 : F
}.

(** Lines 68-69: the two aggregates of the random phase, in the order
    the script evaluates them. *)
Definition random_statistics (residuals : list F) : outcome (F * F) :=
  let rms_random := rms residuals in
  max_random <- py_max residuals ;;
  Return (rms_random, max_random).

Definition run_test26_semicircle_constraint
           (noise : nat -> F) (q_drawn : list F) : outcome test26_result :=
  let rms_uniform := rms (residuals_uniform noise) in
  stats <- random_statistics (residuals_random q_drawn) ;;
  let rms_random := fst stats in
  let max_random := snd stats in
  let mean_radius := np_mean radii in
  let radius_std := np_std radii in
  let passed := pass_criteria rms_uniform rms_random max_random mean_radius in
  Return (mkTest26 passed rms_uniform rms_random max_random mean_radius radius_std).

(** *** tests/Simulations/test_optimal_operating_point.py *)

(** Lines 40-42: the correlation derived from a noisy, clamped
    probability. *)
Definition clamped_c_qc (q_raw : F) : F :=
  c_qc (np_clip q_raw (lit 0.01) (lit 0.99)).

(** Lines 97-101: the sensitivity [d(C_qc)/dq].  The division is the
    checked one, the stricter reading: a NumPy scalar divisor would give
    an infinity and a warning where Python's own floats raise. *)
Definition sensitivity (q : F) : outcome F :=
  let c := c_qc q in
  if c >? lit 0
  then py_div (lit 1 - lit 2 * q) (lit 2 * c)
  else Return (lit 0).

(** *** generate_figures.py *)

(** Line 86: the binomial standard error. *)
Definition q_err (n_shots : nat) (q_meas : F) : F :=
  fsqrt (q_meas * (lit 1 - q_meas) / of_nat n_shots).

(** Lines 90-92: the error-propagation multiplier [|dC/dq|], one element
    of the [np.where].  Both branches are evaluated and the guard
    selects; NumPy's division does not raise. *)
Definition dCdq (q_meas : F) : F :=
  let quotient := fabs (lit 1 - lit 2 * q_meas) /
                  (lit 2 * fsqrt (q_meas * (lit 1 - q_meas))) in
  if (q_meas * (lit 1 - q_meas)) >? lit 0 then quotient else lit 0.

(** Line 93 *)
Definition cqc_err (n_shots : nat) (q_meas : F) : F :=
  dCdq q_meas * q_err n_shots q_meas.

(** [np.polyfit(xs, ys, 1)]: the least-squares line, highest degree
    first, given by the normal equations. *)
Definition polyfit1 (xs ys : list F) : F * F :=
  let n := of_nat (length xs) in
  let sx := fsum xs in
  let sy := fsum ys in
  let sxx := fsum (map sq xs) in
  let sxy := fsum (map (fun p => fst p * snd p) (combine xs ys)) in
  let slope := (n * sxy - sx * sy) / (n * sxx - sx * sx) in
  let intercept := (sy - slope * sx) / n in
  (slope, intercept).

(** *** tests/Simulations/test_barren_plateau_geometry.py *)

(** Lines 75-78; [noise] is the draw [np.random.normal(0, 0.01)]. *)
Definition depth_variance (n_layers : nat) (noise : F) : F :=
  let base_variance := lit 0.25 in
  let depth_variance := base_variance * fpow (lit 0.9) n_layers in
  let depth_variance := depth_variance + noise in
  py_max2 (lit 0) depth_variance.

Definition layer_depths : list nat := [1; 2; 4; 8; 16]%nat.

(** Lines 71-83: the [depth_results] list as (n_layers, variance). *)
Definition depth_results (noise : nat -> F) : list (nat * F) :=
  map (fun il => (snd il, depth_variance (snd il) (noise (fst il))))
      (enumerate layer_depths).

End Kernels.

Arguments test26_result : clear implicits.

(** ** tests/Real IonQ/azure_quantum_tests.py *)

Section AzureRunner.
Context {F : Type} `{PyFloat F}.
Local Open Scope py_scope.

(** Library functions the runner calls on already measured numbers:
    [round(x, 4)] and [np.corrcoef(xs, ys)[0, 1]]. *)
Variable round4 : F -> F.
Variable np_corrcoef : list F -> list F -> F.

Record test_info : Type := mkTestInfo {
  ti_name : string;
  ti_file : string;
  ti_description : string;
  ti_entry_point : string;
  ti_q_values : list F
}.

(** The module-level dictionary [TESTS]. *)
Definition TESTS (test_num : Z) : option test_info :=
  match test_num with
  | 1%Z => Some (mkTestInfo
      "Semicircle Constraint Validation"
      "Test1_SemicircleConstraintValidation.qs"
      "Validates (q - 0.5)^2 + C_qc^2 = 0.25"
      "FourDLT.Tests.MeasureConstraintAtQ"
      (map lit [0.05; 0.10; 0.15; 0.20; 0.25; 0.30; 0.35; 0.40; 0.45;
                0.50; 0.55; 0.60; 0.65; 0.70; 0.75]%Q))
  | 2%Z => Some (mkTestInfo
      "Optimal Operating Point"
      "Test2_OptimalOperatingPoint.qs"
      "Verifies q = 0.5 maximizes C_qc"
      "FourDLT.Tests.MeasureCoherenceAtQ"
      (map lit [0.1; 0.2; 0.3; 0.4; 0.5; 0.6; 0.7; 0.8; 0.9]%Q))
  | 3%Z => Some (mkTestInfo
      "Barren Plateau Geometry"
      "Test3_BarrenPlateauGeometry.qs"
      "Tests gradient variance scaling with q"
      "FourDLT.Tests.MeasureGradientAtQ"
      (map lit [0.05; 0.1; 0.2; 0.3; 0.5; 0.7; 0.8; 0.9; 0.95]%Q))
  | _ => None
  end.

(** What the runner meets outside itself: the import flag, the file
    system, the clock, and the Q# and Azure calls, each of which returns
    or raises.  The calls of the measurement loop are indexed by the
    iteration that makes them. *)
Record world : Type := mkWorld {
  QSHARP_AVAILABLE : bool;
  file_exists : string -> bool;
  now_isoformat : string;
  read_file : string -> outcome string;
  qsharp_eval : string -> outcome unit;
  azure_submit : nat -> string -> F -> string -> Z -> outcome string;
  wait_for_completion : nat -> string -> outcome unit;
  get_results : nat -> string -> outcome (list Z)
}.

Record measurement : Type := mkMeasurement {
  m_q_theory : F;
  m_q_measured : F;
  m_c_qc_measured : F;
  m_c_qc_theory : F;
  m_ones_count : Z;
  m_zeros_count : Z;
  m_job_id : string
}.

Record summary : Type := mkSummary {
  s_total_measurements : nat;
  s_total_shots : Z;
  s_correlation : F;
  s_mean_q_error : F;
  s_std_q_error : F;
  s_max_q_error : F
}.

(** The [results] dictionary; the keys that are set only on some paths
    are optional fields. *)
Record results : Type := mkResults {
  r_test_number : Z;
  r_test_name : string;
  r_description : string;
  r_target : string;
  r_shots : Z;
  r_timestamp : string;
  r_measurements : list measurement;
  r_summary : option summary;
  r_error : option string;
  r_passed : option bool
}.

Definition append_measurement (res : results) (m : measurement) : results :=
  mkResults (r_test_number res) (r_test_name res) (r_description res)
            (r_target res) (r_shots res) (r_timestamp res)
            (r_measurements res ++ [m])
            (r_summary res) (r_error res) (r_passed res).

Definition set_error (res : results) (msg : string) : results :=
  mkResults (r_test_number res) (r_test_name res) (r_description res)
            (r_target res) (r_shots res) (r_timestamp res)
            (r_measurements res) (r_summary res) (Some msg) (r_passed res).

Definition set_passed (res : results) (b : bool) : results :=
  mkResults (r_test_number res) (r_test_name res) (r_description res)
            (r_target res) (r_shots res) (r_timestamp res)
            (r_measurements res) (r_summary res) (r_error res) (Some b).

Definition set_summary (res : results) (s : summary) : results :=
  mkResults (r_test_number res) (r_test_name res) (r_description res)
            (r_target res) (r_shots res) (r_timestamp res)
            (r_measurements res) (Some s) (r_error res) (r_passed res).

(** [ones_count / shots]: Python's true division of two integers. *)
Definition py_int_div (a b : Z) : outcome F :=
  if (b =? 0)%Z
  then Raise (mkExn ZeroDivisionError "division by zero")
  else Return (lit (inject_Z a) / lit (inject_Z b)).

(** Line 204: [sum(1 for r in result if r == 1)] *)
Definition count_ones (result : list Z) : Z :=
  Z.of_nat (length (filter (fun r => (r =? 1)%Z) result)).

(** Lines 186-220: one iteration of the measurement loop. *)
Definition measure_one (w : world) (info : test_info) (target : string)
           (shots : Z) (i : nat) (q : F) : outcome measurement :=
  job_id <- azure_submit w i (ti_entry_point info) q target shots ;;
  _ <- wait_for_completion w i job_id ;;
  result <- get_results w i job_id ;;
  let ones_count := count_ones result in
  q_measured <- py_int_div ones_count shots ;;
  let c_qc_measured := fsqrt (q_measured * (lit 1 - q_measured)) in
  let c_qc_theory := fsqrt (q * (lit 1 - q)) in
  Return (mkMeasurement q (round4 q_measured) (round4 c_qc_measured)
                        (round4 c_qc_theory) ones_count
                        (shots - ones_count)%Z job_id).

(** Lines 183-223: the loop.  The dictionary is updated in place, so
    the measurements appended before an exception stay in it. *)
Fixpoint measure_loop (w : world) (info : test_info) (target : string)
         (shots : Z) (i : nat) (q_values : list F) (res : results)
  : results * option exn :=
  match q_values with
  | [] => (res, None)
  | q :: rest =>
      match measure_one w info target shots i q with
      | Raise e => (res, Some e)
      | Return m =>
          measure_loop w info target shots (S i) rest (append_measurement res m)
      end
  end.

(** Lines 226-255: the summary and the verdict. *)
Definition summarize (res : results) : outcome results :=
  match r_measurements res with
  | [] => Return res
  | _ :: _ =>
      let q_theory := map m_q_theory (r_measurements res) in
      let q_meas := map m_q_measured (r_measurements res) in
      let correlation :=
        if (1 <? length q_theory)%nat then np_corrcoef q_theory q_meas
        else lit 1 in
      let errors := map (fun p => fst p - snd p) (combine q_meas q_theory) in
      max_abs <- py_max (map fabs errors) ;;
      let s := mkSummary
                 (length (r_measurements res))
                 (Z.of_nat (length (r_measurements res)) * r_shots res)%Z
                 (round4 correlation)
                 (round4 (np_mean errors))
                 (round4 (np_std errors))
                 (round4 max_abs) in
      let passed := correlation >? lit 0.9 in
      Return (set_passed (set_summary res s) passed)
  end.

(** Lines 173-255: the body of the [try], as the dictionary it leaves
    behind and the exception that ended it, if any. *)
Definition try_body (w : world) (info : test_info) (target : string)
           (shots : Z) (q_values : list F) (res : results)
  : results * option exn :=
  match read_file w (ti_file info) with
  | Raise e => (res, Some e)
  | Return qs_code =>
      match qsharp_eval w qs_code with
      | Raise e => (res, Some e)
      | Return _ =>
          match measure_loop w info target shots 0 q_values res with
          | (res', Some e) => (res', Some e)
          | (res', None) =>
              match summarize res' with
              | Raise e => (res', Some e)
              | Return res'' => (res'', None)
              end
          end
      end
  end.

(** Lines 258-263: [except Exception as e]. *)
Definition except_Exception (res : results) (e : exn) : outcome results :=
  if is_Exception (exn_kind e)
  then Return (set_passed (set_error res (exn_msg e)) false)
  else Raise e.

(** Lines 157-165: the dictionary as it is created. *)
Definition initial_results (w : world) (test_num : Z) (info : test_info)
           (target : string) (shots : Z) : results :=
mkResults test_num (ti_name info) (ti_description info)
          target shots (now_isoformat w) [] None None None.

(** Lines 146-147 *)
Definition effective_q_values (info : test_info) (q_values : option (list F))
  : list F :=
match q_values with
| None => ti_q_values info
| Some qs => qs
end.

(** The messages of the two argument checks.  The code formats the full
    path [Path(__file__).parent / file]; the model names the file
    relative to the directory of the script. *)
Definition invalid_test_number (test_num : Z) : exn :=
mkExn ValueError
      ("Invalid test number: " ++ string_of_Z test_num ++ ". Must be 1, 2, or 3.").

Definition file_not_found (info : test_info) : exn :=
mkExn FileNotFoundError ("Q# test file not found: " ++ ti_file info).

Definition run_qsharp_test (w : world) (test_num : Z) (target : string)
           (shots : Z) (q_values : option (list F)) : outcome results :=
match TESTS test_num with
| None => Raise (invalid_test_number test_num)
| Some info =>
    if negb (file_exists w (ti_file info))
    then Raise (file_not_found info)
    else
      let q_values := effective_q_values info q_values in
      (* line 155: the banner prints min(q_values) and max(q_values) *)
      _ <- py_min q_values ;;
      _ <- py_max q_values ;;
      let results := initial_results w test_num info target shots in
      if negb (QSHARP_AVAILABLE w)
      then Return (set_error results "Q# SDK not installed")
      else
        match try_body w info target shots q_values results with
        | (res, None) => Return res
        | (res, Some e) => except_Exception res e
        end
end.

End AzureRunner.

Arguments test_info : clear implicits.
Arguments world : clear implicits.
Arguments measurement : clear implicits.
Arguments summary : clear implicits.
Arguments results : clear implicits.

(** ** generate_figures.py, lines 295-309: the depth-scaling fit *)

(** The kernel's floats have no logarithm, so the fit is read over the
    reals, with the three results [np.log] has on a double kept apart. *)
Inductive np_value : Type :=
| Finite (x : R)
| NegInf
| NaN.

(** [np.log(v)]: [-inf] at zero (with a divide-by-zero warning) and [nan]
    below it (with an invalid-value warning); NumPy raises at neither. *)
Definition np_log (v : R) : np_value :=
  if Rlt_dec 0 v then Finite (ln v)
  else if Req_dec_T v 0 then NegInf
  else NaN.

(** The arguments on which [np.log] is called at line 304. *)
Definition log_arguments (variances : list R) : list R := variances.

(** Line 304: [log_var = np.log(variances)] *)
Definition log_var (variances : list R) : list np_value :=
  map np_log (log_arguments variances).

Fixpoint all_finite (vs : list np_value) : option (list R) :=
  match vs with
  | [] => Some []
  | Finite x :: rest =>
      match all_finite rest with
      | Some xs => Some (x :: xs)
      | None => None
      end
  | _ :: _ => None
  end.

(** Lines 304-305: the coefficients [coeffs] of the fitted line when
    every logarithm is a finite number; [None] stands for the
    coefficients [nan] that [np.polyfit] returns on a non-finite
    logarithm.  The lists are those of the script, non-empty and of equal
    length. *)
Definition depth_fit (depths variances : list R) : option (R * R) :=
  match all_finite (log_var variances) with
  | Some ys => Some (polyfit1 depths ys)
  | None => None
  end.

(** Line 309: the rate shown in the legend, [abs(coeffs[0])]. *)
Definition decay_rate (coeffs : R * R) : R := Rabs (fst coeffs).

(** The table of the depth-fit scenario. *)
Definition scenario_depths : list R := [1; 2; 4; 8; 16]%R.
Definition scenario_variances : list R :=
  map Q2R [0.25; 0.225; 0.2025; 0.164; 0.133]%Q.

(** Variances that follow the decay law [c * r ^ depth] without noise. *)
Definition exponential_variances (c r : R) (depths : list nat) : list R :=
  map (fun d => c * r ^ d)%R depths.

(** The variances of [depth_results], as [generate_figures.py] reads them
    back (line 297), and the depths (line 296). *)
Definition variances_of (depth_results : list (nat * R)) : list R :=
  map snd depth_results.
Definition depths_of (depth_results : list (nat * R)) : list R :=
  map (fun d => INR (fst d)) depth_results.

(** ** Concrete collaborators used to exercise the runner *)

(** A world in which the Q# file exists, the SDK is loaded and every job
    completes with the outcomes [1; 0; 1; 1]. *)
Definition completing_world : world float :=
  mkWorld true (fun _ => true) "2026-01-28T00:00:00"
          (fun _ => Return "namespace FourDLT.Tests {}"%string)
          (fun _ => Return tt)
          (fun i _ _ _ _ => Return "job"%string)
          (fun _ _ => Return tt)
          (fun _ _ => Return [1; 0; 1; 1]%Z).

(** The same world with a Q# compiler that rejects the file. *)
Definition rejecting_world : world float :=
  mkWorld true (fun _ => true) "2026-01-28T00:00:00"
          (fun _ => Return "namespace FourDLT.Tests {}"%string)
          (fun _ => Raise (mkExn RuntimeError "Q# compilation failed"))
          (fun i _ _ _ _ => Return "job"%string)
          (fun _ _ => Return tt)
          (fun _ _ => Return [1; 0; 1; 1]%Z).

(** [round(x, 4)] and [np.corrcoef] stand-ins for those runs. *)
Definition round4_id (x : float) : float := x.
Definition corrcoef_one (xs ys : list float) : float := lit 1.

(** A run of [test_barren_plateau_geometry.py] whose last draw,
    [np.random.normal(0, 0.01)] at depth 16, is [-0.05]: the variance
    [0.25 * 0.9 ** 16 = 0.0463...] is pushed below zero. *)
Definition unlucky_noise (i : nat) : R :=
  if (i =? 4)%nat then (- 5 / 100)%R else 0%R.

(** ** Binary64 checks on the scripts' own inputs *)

(** The edge cases of [test_semicircle_constraint.py] (lines 75-85),
    evaluated in binary64 and compared with the tolerance [1e-9]. *)
Definition edge_cases_within_tolerance : bool :=
  forallb (fun q : float => ltb (fabs (edge_residual q)) (lit 0.000000001))
          edge_cases.

(** The 100 grid points of the geometric phase (lines 94-98), in
    binary64: every radius is within [1e-9] of 0.5. *)
Definition grid_radii_within_tolerance : bool :=
  forallb (fun r : float =>
             ltb (fabs (fsub r (lit 0.5))) (lit 0.000000001))
          radii.

(** The 50 grid points of the uniform phase (lines 39-49) without noise,
    in binary64: every residual is below [1e-9]. *)
Definition grid_residuals_within_tolerance : bool :=
  forallb (fun r : float => ltb r (lit 0.000000001))
          (residuals_uniform (fun _ => lit 0)).

(** The two threshold checks of the spec's validator, with the thresholds
    of the script. *)
Definition two_threshold_checks {F : Type} `{PyFloat F} (rms_error max_error : F) : bool :=
  ltb rms_error (lit 0.001) && ltb max_error (lit 0.01).

(** A double that is neither NaN nor an infinity. *)
Definition is_finite_number (x : float) : bool :=
  negb (PrimFloat.is_nan x) && negb (PrimFloat.is_infinity x).

(** The end points [0.0] and [1.0] in binary64: the reference value, the
    sensitivity and the error-propagation multiplier are all [0.0], and
    the sensitivity is returned, not raised. *)
Definition end_points_clamped : bool :=
  forallb (fun q : float =>
             PrimFloat.Leibniz.eqb (c_qc q) (lit 0) &&
             PrimFloat.Leibniz.eqb (dCdq q) (lit 0) &&
             match sensitivity q with
             | Return d => PrimFloat.Leibniz.eqb d (lit 0) && is_finite_number d
             | Raise _ => false
             end)
          [lit 0; lit 1].

(** ** The remaining loops of the scripts *)

Section Simulations.
Context {F : Type} `{PyFloat F}.
Local Open Scope py_scope.

(** Python's two-argument [min(a, b)]: the first argument is kept unless
    the second compares smaller. *)
Definition py_min2 (a b : F) : F := if b <? a then b else a.

(** Python's [max(xs, key=key)]: the first element whose key is not
    exceeded by a later one. *)
Definition py_max_by {A : Type} (key : A -> F) (xs : list A) : outcome A :=
match xs with
| [] => Raise (mkExn ValueError "max() arg is an empty sequence")
| x :: rest =>
    Return (fold_left (fun m y => if key y >? key m then y else m) rest x)
end.

(** *** tests/Simulations/test_optimal_operating_point.py *)

(** Lines 64-66: one step of the descent towards [target = 0.5];
    [draw] is [np.random.normal(0, 0.01)]. *)
Definition descent_step (draw q : F) : F :=
let target := lit 0.5 in
let learning_rate := lit 0.1 in
let grad := lit 2 * (q - target) in
let q := q - learning_rate * grad + draw in
np_clip q (lit 0.01) (lit 0.99).

(** Lines 58-69: the loop.  [fuel] is what is left of [range(100)], [i]
    the number of iterations done and [noise i] the draw of iteration
    [i]; the result is [(n_iterations, q)] as the loop leaves them. *)
Fixpoint descent_loop (noise : nat -> F) (fuel i : nat) (q : F) : nat * F :=
match fuel with
| O => (i, q)
| S fuel' =>
    let target := lit 0.5 in
    let q := descent_step (noise i) q in
    if fabs (q - target) <? lit 0.05 then (S i, q)
    else descent_loop noise fuel' (S i) q
end.

(** Lines 56-75: one entry of [convergence_results], as
    [(iterations, q_final)]. *)
Definition convergence_result (noise : nat -> F) (q_init : F) : nat * F :=
descent_loop noise 100 0 q_init.

(** Line 84 *)
Definition efficiency (q : F) : F := q * (lit 1 - q).

(** Line 88: [max(efficiencies, key=lambda x: x['efficiency'])['q']] *)
Definition max_eff_q (qs : list F) : outcome F := py_max_by efficiency qs.

(** *** tests/Simulations/test_barren_plateau_geometry.py *)

(** Lines 98-103: one training step; [grad] is the draw
    [np.random.normal(0, np.sqrt(grad_var))]. *)
Definition training_step (q grad current_loss : F) : F :=
let grad_var := q * (lit 1 - q) in
let effective_lr := lit 0.1 * fsqrt grad_var in
py_max2 (lit 0) (current_loss - effective_lr * fabs grad).

(** Lines 93-104: the list [loss_history], one entry per draw. *)
Fixpoint loss_history (q : F) (grads : list F) (current_loss : F) : list F :=
match grads with
| [] => []
| grad :: rest =>
    let current_loss := training_step q grad current_loss in
    current_loss :: loss_history q rest current_loss
end.

(** *** generate_figures.py *)

(** Lines 217-219: one step of the plotted gradient ascent. *)
Definition ascent_step (q_cur : F) : F :=
let lr := lit 0.15 in
let grad := lit 1 - lit 2 * q_cur in
let q_cur := q_cur + lr * grad in
py_max2 (lit 0.01) (py_min2 (lit 0.99) q_cur).

Fixpoint ascent_from (q_cur : F) (iters : nat) : list F :=
match iters with
| O => []
| S k => let q_cur := ascent_step q_cur in q_cur :: ascent_from q_cur k
end.

(** Lines 213-220: the list [trajectory]. *)
Definition trajectory (q_init : F) (iters : nat) : list F :=
q_init :: ascent_from q_init iters.

(** Line 223: [cqc_traj] *)
Definition cqc_traj (q_init : F) (iters : nat) : list F :=
map (fun q => fsqrt (q * (lit 1 - q))) (trajectory q_init iters).

(** *** tests/Real IonQ/azure_quantum_tests.py, [main] *)

(** Lines 372-379: the test numbers selected by [--test]; [None] is
    [sys.exit(1)].  [test_lower] is [args.test.lower()] and [as_int] what
    [int(args.test)] returns, if it does. *)
Definition select_tests (test_lower : string) (as_int : option Z)
  : option (list Z) :=
if String.eqb test_lower "all" then Some [1; 2; 3]%Z
else match as_int with
     | Some n => Some [n]
     | None => None
     end.

(** Lines 382-385: the check of the selected numbers against [TESTS]. *)
Definition validate_tests (test_nums : list Z) : option (list Z) :=
if forallb (fun t => match @TESTS F _ t with Some _ => true | None => false end)
           test_nums
then Some test_nums else None.

(** Line 388: [sum(len(TESTS[t]["q_values"]) for t in test_nums)];
    [None] is the [KeyError] of a missing key. *)
Fixpoint total_jobs (test_nums : list Z) : option nat :=
match test_nums with
| [] => Some 0%nat
| t :: rest =>
    match @TESTS F _ t, total_jobs rest with
    | Some info, Some n => Some (length (ti_q_values info) + n)%nat
    | _, _ => None
    end
end.

(** Lines 392-393 and 408-409: the per-job minimum costs. *)
Definition forte_cost (jobs : nat) : F := of_nat jobs * lit 25.00.
Definition aria_cost (jobs : nat) : F := of_nat jobs * lit 12.50.

End Simulations.

(** Line 307 of [generate_figures.py]: the fitted curve
    [np.exp(coeffs[1]) * np.exp(coeffs[0] * depths_fit)] at one depth. *)
Definition fit_line (coeffs : R * R) (depth : R) : R :=
  (exp (snd coeffs) * exp (fst coeffs * depth))%R.

(** The interval to which the descent of
    [test_optimal_operating_point.py] clips [q] (line 66). *)
Definition in_descent_range (q : R) : Prop := (1 / 100 <= q <= 99 / 100)%R.

(** The keys of the dictionary that are written once, when it is
    created (lines 157-164). *)
Definition same_header {F : Type} (a b : results F) : Prop :=
  r_test_number a = r_test_number b /\
  r_test_name a = r_test_name b /\
  r_description a = r_description b /\
  r_target a = r_target b /\
  r_shots a = r_shots b /\
  r_timestamp a = r_timestamp b.

(** A world in which the file is read and compiled and every job of the
    loop completes with the outcomes [result_of i]. *)
Definition all_jobs_complete {F : Type} (w : world F) (info : test_info F)
           (result_of : nat -> list Z) : Prop :=
  (exists code, read_file w (ti_file info) = Return code /\
                qsharp_eval w code = Return tt) /\
  (forall i entry q target shots,
      exists job, azure_submit w i entry q target shots = Return job /\
                  wait_for_completion w i job = Return tt /\
                  get_results w i job = Return (result_of i)).

(** ** Inputs and checks for the binary64 readings *)

(** A world like [completing_world] in which every job returns four 0
    outcomes. *)
Definition all_zero_world : world float :=
  mkWorld true (fun _ => true) "2026-01-28T00:00:00"
          (fun _ => Return "namespace FourDLT.Tests {}"%string)
          (fun _ => Return tt)
          (fun i _ _ _ _ => Return "job"%string)
          (fun _ _ => Return tt)
          (fun _ _ => Return [0; 0; 0; 0]%Z).

(** Lines 227-228 and 239-241 of [azure_quantum_tests.py]: the errors
    [q_meas - q_theory] of a returned dictionary. *)
Definition q_errors {F : Type} `{PyFloat F} (out : results F) : list F :=
  map (fun m => fsub (m_q_measured m) (m_q_theory m)) (r_measurements out).

(** The whole semicircle test in binary64 on the single drawn state
    [0.5], for a given noise of the uniform phase: it returns, the
    verdict is [True] and the RMS and maximum of the random phase are
    [0.0]. *)
Definition single_sample_run (noise : nat -> float) : bool :=
  match run_test26_semicircle_constraint noise [lit 0.5] with
  | Return r =>
      passed26 r &&
      PrimFloat.Leibniz.eqb (rms_random26 r) (lit 0) &&
      PrimFloat.Leibniz.eqb (max_residual26 r) (lit 0)
  | Raise _ => false
  end.

(** A noise of one standard deviation with alternating sign. *)
Definition alternating_noise (i : nat) : float :=
  if Nat.even i then lit 0.005 else lit (-0.005).

(** The sensitivity points of [test_optimal_operating_point.py]
    (line 96). *)
Definition sensitivity_points : list float :=
  [lit 0.45; lit 0.475; lit 0.5; lit 0.525; lit 0.55].

(** In binary64, at every sensitivity point [q] the values computed at
    [q] and at [1 - q] are opposite up to [1e-15]. *)
Definition mirror_within_rounding : bool :=
  forallb (fun q : float =>
             match sensitivity q, sensitivity (fsub (lit 1) q) with
             | Return a, Return b =>
                 ltb (fabs (fadd a b)) (lit 0.000000000000001)
             | _, _ => false
             end)
          sensitivity_points.

(** In binary64, whether at [q = 0.45] the value computed at [1 - q] is
    the opposite of the value computed at [q]. *)
Definition mirror_exact_at_045 : bool :=
  match @sensitivity float _ (lit 0.45),
        @sensitivity float _ (fsub (lit 1) (lit 0.45)) with
  | Return a, Return b => feqb a (PrimFloat.opp b)
  | _, _ => false
  end.

(** In binary64, for every count [k] from 0 to [shots] the correlation
    derived from [k / shots] (lines 205-206 of [azure_quantum_tests.py])
    is a finite number not above 0.5. *)
Definition measured_c_qc_at_most_half (shots : nat) : bool :=
  forallb (fun k : nat =>
             match @py_int_div float _ (Z.of_nat k) (Z.of_nat shots) with
             | Return q =>
                 negb (ltb (lit 0.5) (c_qc q)) && is_finite_number (c_qc q)
             | Raise _ => false
             end)
          (seq 0 (S shots)).

(** In binary64, on the 17 grid points of
    [test_optimal_operating_point.py] (lines 36-42) without noise the
    clamped correlation is a finite number not above 0.5. *)
Definition clamped_grid_at_most_half : bool :=
  forallb (fun q : float =>
             negb (ltb (lit 0.5) (clamped_c_qc q)) &&
             is_finite_number (clamped_c_qc q))
          (linspace (lit 0.1) (lit 0.9) 17).

(** * Properties *)

Local Open Scope R_scope.

(** ** The exact instance *)

Lemma zero_over_one : 0 * / 1 = 0.
Proof. lra. Qed.

Lemma one_over_one : 1 * / 1 = 1.
Proof. lra. Qed.

Ltac real_ops :=
  cbn [lit fadd fsub fmul fdiv fsqrt fabs ltb feqb PyFloat_R] in *;
  unfold Q2R in *; cbn [Qnum Qden inject_Z] in *;
  rewrite ?zero_over_one, ?one_over_one in *.

Lemma Rltb_true (x y : R) : Rltb x y = true <-> x < y.
Proof.
  unfold Rltb. destruct (Rlt_dec x y); split; intros; try easy.
Qed.

Lemma Rltb_false (x y : R) : Rltb x y = false <-> y <= x.
Proof.
  unfold Rltb. destruct (Rlt_dec x y); split; intros; try easy; lra.
Qed.

Lemma Rltb_lt (x y : R) : x < y -> Rltb x y = true.
Proof. apply Rltb_true. Qed.

Lemma Rltb_ge (x y : R) : y <= x -> Rltb x y = false.
Proof. apply Rltb_false. Qed.

Lemma of_nat_R (n : nat) : @of_nat R _ n = INR n.
Proof.
  unfold of_nat. real_ops. rewrite INR_IZR_INZ. unfold Rdiv. lra.
Qed.

Lemma sqrt_quarter : sqrt (1 / 4) = 1 / 2.
Proof.
  replace (1 / 4) with ((1 / 2) * (1 / 2)) by lra.
  apply sqrt_square. lra.
Qed.

Lemma c_qc_R (q : R) : c_qc q = sqrt (q * (1 - q)).
Proof. unfold c_qc. real_ops. reflexivity. Qed.

Lemma c_qc_sq (q : R) : 0 <= q <= 1 -> c_qc q * c_qc q = q * (1 - q).
Proof.
  intros Hq. rewrite c_qc_R. apply sqrt_sqrt. nra.
Qed.

Lemma edge_residual_zero (q : R) : 0 <= q <= 1 -> edge_residual q = 0.
Proof.
  intros Hq. unfold edge_residual, sq. real_ops.
  rewrite (c_qc_sq Hq). lra.
Qed.

Lemma radius_half (q : R) : 0 <= q <= 1 -> radius q = 1 / 2.
Proof.
  intros Hq. unfold radius, sq. real_ops.
  rewrite sqrt_sqrt by nra.
  rewrite <- sqrt_quarter. f_equal. lra.
Qed.

Lemma np_clip_bounds (x lo hi : R) :
  lo <= hi -> lo <= np_clip x lo hi <= hi.
Proof.
  intros Hlh. unfold np_clip. real_ops. unfold Rltb.
  destruct (Rlt_dec x lo); [lra|].
  destruct (Rlt_dec hi x); lra.
Qed.

Lemma measured_residual_zero (q_raw : R) : measured_residual q_raw = 0.
Proof.
  unfold measured_residual.
  set (q := np_clip q_raw (lit 0.001) (lit 0.999)).
  assert (Hq : 1 / 1000 <= q <= 999 / 1000).
  { pose proof (@np_clip_bounds q_raw (lit 0.001) (lit 0.999)) as Hb.
    fold q in Hb. real_ops. lra. }
  clearbody q. unfold py_max2, sq. real_ops.
  rewrite Rltb_lt by nra.
  rewrite sqrt_sqrt by nra.
  replace (_ - _) with 0 by lra. apply Rabs_R0.
Qed.

(** *** Sums and means *)

Lemma fold_left_Rplus (xs : list R) (a : R) :
  fold_left Rplus xs a = a + fold_left Rplus xs 0.
Proof.
  revert a. induction xs as [|x xs IH]; intros a; simpl.
  - lra.
  - rewrite IH, (IH (0 + x)). lra.
Qed.

Lemma fsum_nil : @fsum R _ [] = 0.
Proof. unfold fsum. real_ops. reflexivity. Qed.

Lemma fsum_cons (x : R) (xs : list R) : fsum (x :: xs) = x + fsum xs.
Proof.
  unfold fsum. real_ops. simpl.
  rewrite fold_left_Rplus. lra.
Qed.

Lemma fsum_const (c : R) (xs : list R) :
  Forall (fun x => x = c) xs -> fsum xs = INR (length xs) * c.
Proof.
  induction 1 as [|x xs Hx _ IH].
  - rewrite fsum_nil. simpl. lra.
  - rewrite fsum_cons, IH, Hx. change (length (c :: xs)) with (S (length xs)).
    rewrite S_INR. lra.
Qed.

Lemma np_mean_const (c : R) (xs : list R) :
  xs <> [] -> Forall (fun x => x = c) xs -> np_mean xs = c.
Proof.
  intros Hne Hall. unfold np_mean. rewrite (fsum_const Hall), of_nat_R.
  real_ops. field.
  destruct xs as [|x xs]; [congruence|].
  apply not_0_INR. discriminate.
Qed.

Lemma rms_zeros (xs : list R) :
  Forall (fun x => x = 0) xs -> rms xs = 0.
Proof.
  intros Hall. unfold rms, np_mean.
  assert (Hsq : Forall (fun x => x = 0) (map sq xs)).
  { rewrite Forall_map. eapply Forall_impl; [|exact Hall].
    intros x ->. unfold sq. real_ops. lra. }
  rewrite (fsum_const Hsq). real_ops.
  replace (_ / _) with 0 by (unfold Rdiv; lra).
  apply sqrt_0.
Qed.

Lemma py_max_zeros (x : R) (xs : list R) :
  Forall (fun x => x = 0) (x :: xs) -> py_max (x :: xs) = Return 0.
Proof.
  intros Hall. inversion Hall as [|y ys Hx Hxs]; subst. simpl. f_equal.
  clear Hall. induction Hxs as [|y ys -> _ IH]; simpl; [reflexivity|].
  unfold py_max2 at 2. real_ops. rewrite Rltb_ge by lra. exact IH.
Qed.

(** *** The grid of [np.linspace] *)

Lemma linspace_SS (F : Type) `{PyFloat F} (a b : F) (d : nat) :
  linspace a b (S (S d)) =
  map (fun i => fadd (fmul (of_nat i) (fdiv (fsub b a) (of_nat (S d)))) a)
      (seq 0 (S d)) ++ [b].
Proof. reflexivity. Qed.

Lemma linspace_bounds (a b : R) (num : nat) :
  a <= b -> Forall (fun x => a <= x <= b) (linspace a b num).
Proof.
  intros Hab. destruct num as [|[|d]].
  - constructor.
  - constructor; [lra | constructor].
  - rewrite linspace_SS.
    apply Forall_app. split; [|constructor; [lra | constructor]].
    rewrite Forall_map, Forall_forall. intros i Hi.
    apply in_seq in Hi. rewrite !of_nat_R. real_ops.
    assert (Hd : 0 < INR (S d)) by (apply lt_0_INR; lia).
    assert (Hi' : 0 <= INR i <= INR (S d)).
    { split; [apply pos_INR|]. apply le_INR. lia. }
    set (n := INR (S d)) in *. set (k := INR i) in *.
    assert (Hk : 0 <= k / n <= 1).
    { split.
      - apply Rmult_le_pos; [lra|]. apply Rlt_le, Rinv_0_lt_compat, Hd.
      - apply (Rmult_le_reg_r n); [exact Hd|]. field_simplify; lra. }
    replace (k * ((b - a) / n) + a) with (a + (k / n) * (b - a))
      by (field; lra).
    nra.
Qed.

Lemma linspace_length (F : Type) `{PyFloat F} (a b : F) (num : nat) :
  length (linspace a b num) = num.
Proof.
  destruct num as [|[|d]]; try reflexivity.
  rewrite linspace_SS, length_app, length_map, length_seq. simpl. lia.
Qed.

Lemma radii_half : Forall (fun r => r = 1 / 2) (@radii R _).
Proof.
  unfold radii. rewrite Forall_map.
  eapply Forall_impl; [|apply linspace_bounds; real_ops; lra].
  intros q Hq. apply radius_half. real_ops. lra.
Qed.

Lemma mean_radius_half : np_mean (@radii R _) = 1 / 2.
Proof.
  apply np_mean_const; [|apply radii_half].
  intros Hnil. apply (f_equal (@length R)) in Hnil.
  unfold radii in Hnil. rewrite length_map, linspace_length in Hnil.
  discriminate.
Qed.

Lemma residuals_uniform_zero (noise : nat -> R) :
  Forall (fun x => x = 0) (residuals_uniform noise).
Proof.
  unfold residuals_uniform. rewrite Forall_map, Forall_forall.
  intros iq _. apply measured_residual_zero.
Qed.

Lemma residuals_random_zero (q_drawn : list R) :
  Forall (fun x => x = 0) (residuals_random q_drawn).
Proof.
  unfold residuals_random. rewrite Forall_map, Forall_forall.
  intros q _. apply measured_residual_zero.
Qed.

(** *** The whole semicircle test in exact arithmetic *)

Lemma np_std_const (c : R) (xs : list R) :
  xs <> [] -> Forall (fun x => x = c) xs -> np_std xs = 0.
Proof.
  intros Hne Hall. unfold np_std. rewrite (np_mean_const Hne Hall).
  cbv zeta. set (ys := map _ xs).
  assert (Hz : Forall (fun x => x = 0) ys).
  { subst ys. rewrite Forall_map. eapply Forall_impl; [|exact Hall].
    intros x ->. unfold sq. real_ops.
    replace (c - c) with 0 by lra. rewrite Rabs_R0. lra. }
  unfold np_mean. rewrite (fsum_const Hz). real_ops.
  replace (_ / _) with 0 by (unfold Rdiv; lra).
  apply sqrt_0.
Qed.

Lemma pass_criteria_R (ru rr mr mean : R) :
  pass_criteria ru rr mr mean = true <->
  ru < 1 / 1000 /\ rr < 1 / 1000 /\ mr < 1 / 100 /\ Rabs (mean - 1 / 2) < 1 / 1000.
Proof.
  unfold pass_criteria. rewrite !andb_true_iff. real_ops.
  rewrite !Rltb_true.
  replace (5 * / 10) with (1 / 2) by lra.
  replace (1 * / 1000) with (1 / 1000) by lra.
  replace (1 * / 100) with (1 / 100) by lra.
  tauto.
Qed.

Lemma run_test26_exact (noise : nat -> R) (q : R) (qs : list R) :
  run_test26_semicircle_constraint noise (q :: qs) =
  Return (mkTest26 true 0 0 0 (1 / 2) 0).
Proof.
  unfold run_test26_semicircle_constraint, random_statistics.
  rewrite (rms_zeros (residuals_uniform_zero noise)).
  rewrite (rms_zeros (residuals_random_zero (q :: qs))).
  change (residuals_random (q :: qs))
    with (measured_residual q :: residuals_random qs).
  rewrite py_max_zeros
    by (constructor; [apply measured_residual_zero | apply residuals_random_zero]).
  cbn [bind fst snd].
  rewrite mean_radius_half.
  assert (Hne : @radii R _ <> []).
  { intros Hnil. apply (f_equal (@length R)) in Hnil.
    unfold radii in Hnil. rewrite length_map, linspace_length in Hnil.
    discriminate. }
  rewrite (np_std_const Hne radii_half).
  assert (Hp : pass_criteria 0 0 0 (1 / 2) = true).
  { apply pass_criteria_R. replace (1 / 2 - 1 / 2) with 0 by lra.
    rewrite Rabs_R0. lra. }
  rewrite Hp. reflexivity.
Qed.

(** ** The semicircle constraint *)

(** C1.  For every [x] strictly between 0 and 1 the circle-constraint
    residual [(x - 0.5)^2 + C_qc^2 - 0.25] of the edge-case loop is zero
    in exact arithmetic, the point [(x - 0.5, C_qc)] has radius 0.5, and
    in binary64 the residuals of the script's three edge cases and of its
    two sampling grids stay within the tolerance [1e-9]. *)
Theorem semicircle_residual_vanishes (x : R) (Hx : 0 < x < 1) :
  (x - 1 / 2) ^ 2 + c_qc x ^ 2 = 1 / 4 /\
  edge_residual x = 0 /\
  radius x = 1 / 2 /\
  edge_cases_within_tolerance = true /\
  grid_radii_within_tolerance = true /\
  grid_residuals_within_tolerance = true.
Proof.
  assert (Hx' : 0 <= x <= 1) by lra.
  split; [|split; [|split; [|split; [|split]]]].
  - replace (c_qc x ^ 2) with (c_qc x * c_qc x) by ring.
    rewrite (c_qc_sq Hx'). field.
  - apply edge_residual_zero, Hx'.
  - apply radius_half, Hx'.
  - vm_compute. reflexivity.
  - vm_compute. reflexivity.
  - vm_compute. reflexivity.
Qed.

Lemma semicircle_residual_vanishes_witness :
  0 < 1 / 4 < 1 /\ @edge_residual R _ (1 / 4) = 0.
Proof.
  assert (H : 0 < 1 / 4 < 1) by lra.
  split; [exact H|].
  exact (proj1 (proj2 (@semicircle_residual_vanishes (1 / 4) H))).
Defined.

(** ** The verdict *)

(** C2, counterexample.  The runner called on the single q value 0.5
    with 4 shots, in a world whose job returns four 0 outcomes: the
    measured frequency is 0.0 and the error [q_meas - q_theory] is -0.5,
    so the RMS error and the largest error are 0.5 and both threshold
    checks (0.001 and 0.01) fail; the correlation of a single point is
    set to 1.0 and the verdict is [True].  ([round(x, 4)] leaves 0.0 and
    0.5 unchanged and [np.corrcoef] is not called.) *)
Lemma runner_passes_with_large_error :
  match run_qsharp_test round4_id corrcoef_one all_zero_world 2
                        "ionq.simulator" 4 (Some [lit 0.5]) with
  | Return out =>
      r_passed out = Some true /\
      q_errors out = [lit (-0.5)] /\
      rms (q_errors out) = lit 0.5 /\
      py_max (map fabs (q_errors out)) = Return (lit 0.5) /\
      two_threshold_checks (rms (q_errors out)) (lit 0.5) = false
  | Raise _ => False
  end.
Proof. vm_compute. repeat split. Qed.

Lemma py_max_nonempty (F : Type) `{PyFloat F} (x : F) (xs : list F) :
  exists m, py_max (x :: xs) = Return m.
Proof. eexists. reflexivity. Qed.

(** C2, amended.  The verdict reported by the semicircle test is the
    conjunction of four checks on the aggregates it returns: the RMS of
    the uniform phase and of the random phase below 0.001, the largest
    random residual below 0.01, and the mean radius within 0.001 of 0.5,
    with the thresholds fixed in the code.  On every run, in exact
    arithmetic, all four hold, so there the verdict and the two checks
    of the claim are true together.  The verdict of the Azure runner is
    [correlation > 0.9] alone and does not follow the error checks. *)
Theorem verdict_is_conjunction_of_four_checks :
  (forall (noise : nat -> R) (q : R) (qs : list R),
      exists r : test26_result R,
        run_test26_semicircle_constraint noise (q :: qs) = Return r /\
        passed26 r = true /\
        two_threshold_checks (rms_random26 r) (max_residual26 r) = true) /\
  single_sample_run (fun _ => lit 0) = true /\
  (forall (F : Type) (ops : PyFloat F) (noise : nat -> F) (q_drawn : list F),
      match run_test26_semicircle_constraint noise q_drawn with
      | Return r =>
          passed26 r =
          ltb (rms_uniform26 r) (lit 0.001) &&
          ltb (rms_random26 r) (lit 0.001) &&
          ltb (max_residual26 r) (lit 0.01) &&
          ltb (fabs (fsub (mean_radius26 r) (lit 0.5))) (lit 0.001)
      | Raise _ => q_drawn = []
      end) /\
  (forall ru rr mr mean : R,
      pass_criteria ru rr mr mean = true <->
      ru < 1 / 1000 /\ rr < 1 / 1000 /\ mr < 1 / 100 /\
      Rabs (mean - 1 / 2) < 1 / 1000) /\
  (forall (F : Type) (ops : PyFloat F) (ru rr mr mean : F),
      pass_criteria ru rr mr mean =
      two_threshold_checks rr mr &&
      (ltb ru (lit 0.001) && ltb (fabs (fsub mean (lit 0.5))) (lit 0.001))) /\
  (forall (F : Type) (ops : PyFloat F) (round4 : F -> F)
          (np_corrcoef : list F -> list F -> F)
          (res : results F) (m : measurement F),
      exists res',
        summarize round4 np_corrcoef (append_measurement res m) = Return res' /\
        r_passed res' =
        Some (ltb (lit 0.9)
                  (if (1 <? length (r_measurements res ++ [m]))%nat
                   then np_corrcoef
                          (map (@m_q_theory F) (r_measurements res ++ [m]))
                          (map (@m_q_measured F) (r_measurements res ++ [m]))
                   else lit 1))).
Proof.
  split; [|split; [|split; [|split; [|split]]]].
  - intros noise q qs. eexists. split; [apply run_test26_exact|].
    cbn [passed26 rms_random26 max_residual26]. split; [reflexivity|].
    unfold two_threshold_checks. real_ops.
    rewrite !Rltb_lt by lra. reflexivity.
  - vm_compute. reflexivity.
  - intros F ops noise q_drawn. destruct q_drawn as [|q qs]; reflexivity.
  - intros ru rr mr mean. apply pass_criteria_R.
  - intros F ops ru rr mr mean.
    unfold pass_criteria, two_threshold_checks.
    destruct (ltb ru _), (ltb rr _), (ltb mr _), (ltb (fabs _) _); reflexivity.
  - intros F ops round4 np_corrcoef res m.
    unfold summarize. cbn [append_measurement r_measurements].
    destruct (r_measurements res ++ [m]) as [|m0 ms] eqn:Hms.
    + destruct (r_measurements res); discriminate.
    + cbn [map combine py_max bind]. eexists. split; [reflexivity|].
      cbn [r_passed set_passed length]. rewrite length_map. reflexivity.
Qed.

(** ** Empty input *)

(** C7, counterexample.  On an empty residual list the statistics of the
    random phase (lines 68-69) raise: Python's [max] rejects the empty
    list with a [ValueError]. *)
Lemma empty_random_statistics_raise :
  @random_statistics float _ [] =
  Raise (mkExn ValueError "max() arg is an empty sequence").
Proof. reflexivity. Qed.

(** C7, amended.  On an empty sample sequence the RMS aggregate
    [np.sqrt(np.mean(...))] and the mean evaluate to NaN without raising;
    the maximum, taken with Python's built-in [max], raises [ValueError],
    and so does the test as a whole when its random phase is empty. *)
Theorem empty_sample_statistics :
  PrimFloat.is_nan (@rms float _ []) = true /\
  PrimFloat.is_nan (@np_mean float _ []) = true /\
  PrimFloat.is_nan (@rms float _ (residuals_random [])) = true /\
  (exists e, @py_max float _ [] = Raise e /\ exn_kind e = ValueError) /\
  (forall noise : nat -> float,
      exists e, run_test26_semicircle_constraint noise [] = Raise e /\
                exn_kind e = ValueError).
Proof.
  split; [|split; [|split; [|split]]].
  - vm_compute. reflexivity.
  - vm_compute. reflexivity.
  - vm_compute. reflexivity.
  - eexists. split; reflexivity.
  - intros noise. eexists. split; reflexivity.
Qed.

(** ** The single-sample scenario *)

(** C8.  For the sample [x = 0.5], whose reference value
    [sqrt(0.5 * 0.5)] is the observed [0.5], the binary64 residual list is
    [[0.0]], the RMS and the maximum are [0.0], and both threshold checks
    (0.001 and 0.01) pass; in exact arithmetic the whole test run on that
    sample returns [rms_random = 0] and [passed = True], and so does the
    whole run in binary64, with its four-way verdict, for a uniform
    phase without noise and for one with noise of one standard
    deviation. *)
Theorem single_sample_scenario :
  single_sample_run (fun _ => lit 0) = true /\
  single_sample_run alternating_noise = true /\
  @c_qc float _ (lit 0.5) = lit 0.5 /\
  residuals_random [lit 0.5 : float] = [lit 0] /\
  random_statistics (residuals_random [lit 0.5 : float]) = Return (lit 0, lit 0) /\
  two_threshold_checks (lit 0 : float) (lit 0) = true /\
  (forall noise : nat -> R,
      run_test26_semicircle_constraint noise [1 / 2] =
      Return (mkTest26 true 0 0 0 (1 / 2) 0)).
Proof.
  split; [|split; [|split; [|split; [|split; [|split]]]]].
  - vm_compute. reflexivity.
  - vm_compute. reflexivity.
  - vm_compute. reflexivity.
  - vm_compute. reflexivity.
  - vm_compute. reflexivity.
  - vm_compute. reflexivity.
  - intros noise. apply run_test26_exact.
Qed.

(** ** The sensitivity *)

Lemma c_qc_pos_iff (q : R) : 0 < c_qc q <-> 0 < q * (1 - q).
Proof.
  rewrite c_qc_R. split.
  - intros Hc. destruct (Rlt_dec 0 (q * (1 - q))) as [Hp|Hn]; [exact Hp|].
    rewrite sqrt_neg_0 in Hc by lra. lra.
  - apply sqrt_lt_R0.
Qed.

Lemma sensitivity_R (q : R) :
  sensitivity q =
  Return (if Rlt_dec 0 (c_qc q) then (1 - 2 * q) / (2 * c_qc q) else 0).
Proof.
  unfold sensitivity, py_div. cbv zeta.
  set (c := c_qc q). real_ops. rewrite ?Rinv_1, ?Rmult_1_r.
  unfold Rltb, Reqb.
  destruct (Rlt_dec 0 c) as [Hc|Hc]; [|reflexivity].
  destruct (Req_dec_T (2 * c) 0) as [Hz|Hz]; [lra|reflexivity].
Qed.

Lemma dCdq_R (q : R) :
  dCdq q = if Rlt_dec 0 (c_qc q) then Rabs (1 - 2 * q) / (2 * c_qc q) else 0.
Proof.
  unfold dCdq. cbv zeta. real_ops. rewrite ?Rinv_1, ?Rmult_1_r.
  fold (sqrt (q * (1 - q))). rewrite <- c_qc_R.
  unfold Rltb.
  destruct (Rlt_dec 0 (q * (1 - q))) as [Hp|Hn];
    destruct (Rlt_dec 0 (c_qc q)) as [Hc|Hc]; try reflexivity.
  - exfalso. apply Hc, c_qc_pos_iff, Hp.
  - exfalso. apply Hn, c_qc_pos_iff, Hc.
Qed.

Lemma c_qc_end_points : @c_qc R _ 0 = 0 /\ @c_qc R _ 1 = 0.
Proof.
  rewrite !c_qc_R. split.
  - replace (0 * (1 - 0)) with 0 by lra. apply sqrt_0.
  - replace (1 * (1 - 1)) with 0 by lra. apply sqrt_0.
Qed.

(** C3.  The sensitivity loop returns [(1 - 2q) / (2 C_qc)] whenever
    [C_qc = sqrt(q(1-q))] is positive and 0 otherwise, and never raises
    [ZeroDivisionError]; the multiplier [dCdq] of the figure script is
    the absolute value of the same quotient under the same guard.  The
    reference value and the sensitivity are 0 at [q = 0] and [q = 1], in
    exact arithmetic and, as finite numbers, in binary64. *)
Theorem sensitivity_formula_and_clamp :
  (forall q : R,
      sensitivity q =
      Return (if Rlt_dec 0 (c_qc q) then (1 - 2 * q) / (2 * c_qc q) else 0)) /\
  (forall q : R,
      dCdq q =
      if Rlt_dec 0 (c_qc q) then Rabs (1 - 2 * q) / (2 * c_qc q) else 0) /\
  @c_qc R _ 0 = 0 /\ @c_qc R _ 1 = 0 /\
  @sensitivity R _ 0 = Return 0 /\ @sensitivity R _ 1 = Return 0 /\
  end_points_clamped = true.
Proof.
  destruct c_qc_end_points as [H0 H1].
  split; [exact sensitivity_R|].
  split; [exact dCdq_R|].
  split; [exact H0|]. split; [exact H1|].
  split; [|split].
  - rewrite sensitivity_R, H0. destruct (Rlt_dec 0 0); [lra|reflexivity].
  - rewrite sensitivity_R, H1. destruct (Rlt_dec 0 0); [lra|reflexivity].
  - vm_compute. reflexivity.
Qed.

Lemma c_qc_mirror (x : R) : c_qc (1 - x) = c_qc x.
Proof. rewrite !c_qc_R. f_equal. ring. Qed.

(** C6, counterexample.  In binary64, at [x = 0.45] the sensitivity
    computed at [1 - x] is not the opposite of the one computed at [x]:
    the two differ in the last place. *)
Lemma sensitivity_mirror_inexact_at_045 : mirror_exact_at_045 = false.
Proof. vm_compute. reflexivity. Qed.

(** C6, amended.  In exact arithmetic, for [x] strictly between 0 and 1
    the sensitivity at [1 - x] is the opposite of the sensitivity at
    [x], which is [(1 - 2x) / (2 sqrt(x(1-x)))].  In binary64 the two
    computed values are opposite up to rounding: within [1e-15] at the
    five points of the script.  At [x = 0.5] the sensitivity is 0, in
    exact arithmetic and bit for bit in binary64. *)
Theorem sensitivity_antisymmetric (x : R) (Hx : 0 < x < 1) :
  mirror_within_rounding = true /\
  (exists d : R,
      d = (1 - 2 * x) / (2 * sqrt (x * (1 - x))) /\
      sensitivity x = Return d /\
      sensitivity (1 - x) = Return (- d)) /\
  @sensitivity R _ (1 / 2) = Return 0 /\
  @sensitivity float _ (lit 0.5) = Return (lit 0).
Proof.
  assert (Hpos : forall y, 0 < y < 1 -> 0 < c_qc y).
  { intros y Hy. apply c_qc_pos_iff. nra. }
  split; [vm_compute; reflexivity|].
  split; [|split].
  - exists ((1 - 2 * x) / (2 * sqrt (x * (1 - x)))).
    split; [reflexivity|]. rewrite !sensitivity_R, c_qc_mirror.
    pose proof (Hpos x Hx) as Hc.
    destruct (Rlt_dec 0 (c_qc x)) as [_|Hn]; [|contradiction].
    rewrite <- c_qc_R. split; f_equal. field. lra.
  - rewrite sensitivity_R.
    assert (Hh : 0 < c_qc (1 / 2)) by (apply Hpos; lra).
    destruct (Rlt_dec 0 (c_qc (1 / 2))) as [_|Hn]; [|contradiction].
    f_equal. field. lra.
  - vm_compute. reflexivity.
Qed.

Lemma sensitivity_antisymmetric_witness :
  0 < 1 / 4 < 1 /\
  exists d : R, @sensitivity R _ (1 / 4) = Return d /\
                @sensitivity R _ (1 - 1 / 4) = Return (- d).
Proof.
  assert (H : 0 < 1 / 4 < 1) by lra.
  split; [exact H|].
  destruct (proj1 (proj2 (@sensitivity_antisymmetric (1 / 4) H)))
    as [d [_ Hd]].
  exists d. exact Hd.
Defined.

(** ** The range of the correlation *)

Lemma c_qc_range (q : R) : 0 <= c_qc q <= 1 / 2.
Proof.
  rewrite c_qc_R. split; [apply sqrt_pos|].
  rewrite <- sqrt_quarter. apply sqrt_le_1_alt.
  pose proof (Rle_0_sqr (q - 1 / 2)) as Hsq. unfold Rsqr in Hsq. lra.
Qed.

Lemma c_qc_half_iff (q : R) : 0 <= q <= 1 -> (c_qc q = 1 / 2 <-> q = 1 / 2).
Proof.
  intros Hq. split.
  - intros Hc. pose proof (c_qc_sq Hq) as Hs. rewrite Hc in Hs. nra.
  - intros ->. rewrite c_qc_R.
    replace (1 / 2 * (1 - 1 / 2)) with (1 / 4) by lra. apply sqrt_quarter.
Qed.

Lemma count_ones_le (result : list Z) :
  (0 <= count_ones result <= Z.of_nat (length result))%Z.
Proof.
  unfold count_ones. split; [lia|].
  apply Nat2Z.inj_le, filter_length_le.
Qed.

Lemma py_int_div_R (a b : Z) :
  b <> 0%Z -> @py_int_div R _ a b = Return (IZR a / IZR b).
Proof.
  intros Hb. unfold py_int_div.
  destruct (Z.eqb_spec b 0) as [Hz|_]; [contradiction|].
  real_ops. rewrite ?Rinv_1, ?Rmult_1_r. reflexivity.
Qed.

(** C9, counterexample.  In binary64 the computed correlation is 0.5
    at [q = 0.500000001], a point of [[0, 1]] that is not 0.5; and when a
    job returns more 1 outcomes than [shots] (3 with [shots = 2]) the
    measured frequency is 1.5 and the correlation derived from it is
    NaN, which is not bounded by 0.5. *)
Lemma c_qc_half_away_from_half :
  feqb (@c_qc float _ (lit 0.500000001)) (lit 0.5) = true /\
  feqb (lit 0.500000001 : float) (lit 0.5) = false /\
  ltb (lit 0 : float) (lit 0.500000001) = true /\
  ltb (lit 0.500000001 : float) (lit 1) = true /\
  match @py_int_div float _ 3 2 with
  | Return q_measured =>
      feqb q_measured (lit 1.5) && PrimFloat.is_nan (c_qc q_measured)
  | Raise _ => false
  end = true.
Proof. vm_compute. repeat split. Qed.

(** C9, amended.  In exact arithmetic, for every [q] in [[0, 1]] the
    correlation [sqrt(q(1-q))] lies in [[0, 0.5]] and equals 0.5 exactly
    at [q = 0.5]; the values derived from a probability clamped to
    [[0.01, 0.99]] or to [[0.001, 0.999]] are at most 0.5, and so is the
    value derived from the measured frequency [ones_count / shots] when
    the job returns at most [shots] outcomes and [shots] is positive, a
    condition the runner does not check.  In binary64 the bound holds,
    with finite values, for every count from 0 to 52 at the default 52
    shots and on the 17 grid points of the operating-point test. *)
Theorem c_qc_bounded_by_half (q : R) (Hq : 0 <= q <= 1) :
  0 <= c_qc q <= 1 / 2 /\
  (c_qc q = 1 / 2 <-> q = 1 / 2) /\
  (forall q_raw : R, 0 <= clamped_c_qc q_raw <= 1 / 2) /\
  (forall q_raw : R,
      0 <= c_qc (np_clip q_raw (lit 0.001) (lit 0.999)) <= 1 / 2) /\
  (forall (result : list Z) (shots : Z),
      (0 < shots)%Z -> (Z.of_nat (length result) <= shots)%Z ->
      exists q_measured : R,
        py_int_div (count_ones result) shots = Return q_measured /\
        0 <= q_measured <= 1 /\
        0 <= c_qc q_measured <= 1 / 2) /\
  measured_c_qc_at_most_half 52 = true /\
  clamped_grid_at_most_half = true.
Proof.
  split; [apply c_qc_range|].
  split; [apply c_qc_half_iff, Hq|].
  split; [intros q_raw; apply c_qc_range|].
  split; [intros q_raw; apply c_qc_range|].
  split; [|split; vm_compute; reflexivity].
  intros result shots Hshots Hlen.
  exists (IZR (count_ones result) / IZR shots).
  split; [apply py_int_div_R; lia|].
  split; [|apply c_qc_range].
  pose proof (count_ones_le result) as [Hlo Hhi].
  assert (Hhi' : (count_ones result <= shots)%Z) by lia.
  apply IZR_le in Hlo, Hhi'. apply IZR_lt in Hshots.
  set (n := IZR shots) in *.
  set (k := IZR (count_ones result)) in *.
  split.
  - apply Rmult_le_pos; [exact Hlo|]. apply Rlt_le, Rinv_0_lt_compat, Hshots.
  - apply (Rmult_le_reg_r n); [exact Hshots|]. unfold Rdiv.
    rewrite Rmult_assoc, Rinv_l by lra. lra.
Qed.

Lemma c_qc_bounded_by_half_witness :
  0 <= 1 / 2 <= 1 /\ 0 <= @c_qc R _ (1 / 2) <= 1 / 2.
Proof.
  assert (H : 0 <= 1 / 2 <= 1) by lra.
  split; [exact H|].
  exact (proj1 (@c_qc_bounded_by_half (1 / 2) H)).
Defined.

(** ** The Azure runner *)

Section RunnerProperties.
Context {F : Type} `{PyFloat F}.
Variable round4 : F -> F.
Variable np_corrcoef : list F -> list F -> F.

(** The measurement loop only appends: when it stops on an exception,
    the iteration that raised is identified, the measurements of the
    iterations before it are in the dictionary, and no other key has
    changed. *)
Lemma measure_loop_raise (w : world F) (info : test_info F) (target : string)
      (shots : Z) (q_values : list F) :
  forall (i : nat) (res res' : results F) (e : exn),
    measure_loop round4 w info target shots i q_values res = (res', Some e) ->
    exists (done : list F) (q : F) (rest : list F) (ms : list (measurement F)),
      q_values = done ++ q :: rest /\
      measure_one round4 w info target shots (i + length done) q = Raise e /\
      r_measurements res' = r_measurements res ++ ms /\
      length ms = length done /\
      r_error res' = r_error res /\
      r_passed res' = r_passed res.
Proof.
  induction q_values as [|q rest IH]; intros i res res' e Hloop.
  - discriminate.
  - cbn [measure_loop] in Hloop.
    destruct (measure_one round4 w info target shots i q) as [m|e'] eqn:Hone.
    + apply IH in Hloop.
      destruct Hloop as (done & q' & rest' & ms & Hq & Hr & Hm & Hl & He & Hp).
      exists (q :: done), q', rest', (m :: ms).
      cbn [append_measurement r_measurements r_error r_passed] in *.
      repeat split; try assumption.
      * rewrite Hq. reflexivity.
      * cbn [length]. rewrite Nat.add_succ_r. exact Hr.
      * rewrite Hm, <- app_assoc. reflexivity.
      * cbn [length]. congruence.
    + inversion Hloop; subst.
      exists [], q, rest, [].
      cbn [length app]. rewrite Nat.add_0_r, app_nil_r.
      repeat split; try reflexivity. exact Hone.
Qed.

Lemma py_min_nonempty (x : F) (xs : list F) :
  exists m, py_min (x :: xs) = Return m.
Proof. eexists. reflexivity. Qed.

Lemma summarize_returns (res : results F) :
  exists res', summarize round4 np_corrcoef res = Return res'.
Proof.
  unfold summarize. destruct (r_measurements res) as [|m ms].
  - eexists. reflexivity.
  - cbn [map combine py_max bind]. eexists. reflexivity.
Qed.

(** An exception leaves the body of the [try] from one of three places:
    reading the file, compiling it, or an iteration of the loop. *)
Lemma try_body_raise (w : world F) (info : test_info F) (target : string)
      (shots : Z) (q_values : list F) (res res' : results F) (e : exn) :
  try_body round4 np_corrcoef w info target shots q_values res = (res', Some e) ->
  (read_file w (ti_file info) = Raise e /\ res' = res) \/
  (exists qs_code, read_file w (ti_file info) = Return qs_code /\
                   qsharp_eval w qs_code = Raise e /\ res' = res) \/
  (exists (done : list F) (q : F) (rest : list F),
      q_values = done ++ q :: rest /\
      measure_one round4 w info target shots (length done) q = Raise e /\
      length (r_measurements res') =
      (length (r_measurements res) + length done)%nat).
Proof.
  unfold try_body. intros Hbody.
  destruct (read_file w (ti_file info)) as [qs_code|e1] eqn:Hread.
  - destruct (qsharp_eval w qs_code) as [[]|e2] eqn:Heval.
    + destruct (measure_loop round4 w info target shots 0 q_values res)
        as [res1 [e3|]] eqn:Hloop.
      * inversion Hbody; subst. right. right.
        apply measure_loop_raise in Hloop.
        destruct Hloop as (done & q & rest & ms & Hq & Hr & Hm & Hl & _).
        exists done, q, rest. split; [exact Hq|]. split; [exact Hr|].
        rewrite Hm, length_app, Hl. reflexivity.
      * destruct (summarize_returns res1) as [res2 Hsum].
        rewrite Hsum in Hbody. discriminate.
    + inversion Hbody; subst. right. left.
      exists qs_code. repeat split; assumption.
  - inversion Hbody; subst. left. split; reflexivity.
Qed.

(** C10, amended.  For a test number of [TESTS] whose Q# file exists,
    with a non-empty list of q values and the Q# SDK loaded: when a step
    inside the [try] raises a subclass of [Exception], the runner
    returns the dictionary with the message under ['error'], [False]
    under ['passed'] and the measurements taken so far.  The argument
    checks before the [try] are not caught: an unknown test number
    raises [ValueError], a missing file [FileNotFoundError], and an
    empty list of q values the [ValueError] of [min]. *)
Theorem run_qsharp_test_catches_inside_try
        (w : world F) (test_num : Z) (target : string) (shots : Z)
        (q_values : option (list F)) (info : test_info F)
        (res : results F) (e : exn)
        (Hnum : TESTS test_num = Some info)
        (Hfile : file_exists w (ti_file info) = true)
        (Hsdk : QSHARP_AVAILABLE w = true)
        (Hqs : effective_q_values info q_values <> [])
        (Hbody : try_body round4 np_corrcoef w info target shots
                          (effective_q_values info q_values)
                          (initial_results w test_num info target shots)
                 = (res, Some e))
        (Hexc : is_Exception (exn_kind e) = true) :
  (exists out : results F,
      run_qsharp_test round4 np_corrcoef w test_num target shots q_values =
      Return out /\
      r_error out = Some (exn_msg e) /\
      r_passed out = Some false /\
      r_measurements out = r_measurements res) /\
  (forall (w' : world F) (n : Z) (qs : option (list F)),
      @TESTS F _ n = None ->
      run_qsharp_test round4 np_corrcoef w' n target shots qs =
      Raise (invalid_test_number n)) /\
  (forall w' : world F,
      file_exists w' (ti_file info) = false ->
      run_qsharp_test round4 np_corrcoef w' test_num target shots q_values =
      Raise (file_not_found info)) /\
  (forall w' : world F,
      file_exists w' (ti_file info) = true ->
      run_qsharp_test round4 np_corrcoef w' test_num target shots (Some []) =
      Raise (mkExn ValueError "min() arg is an empty sequence")).
Proof.
  split; [|split; [|split]].
  - unfold run_qsharp_test. rewrite Hnum, Hfile. cbn [negb].
    destruct (effective_q_values info q_values) as [|q qs] eqn:Heff;
      [congruence|].
    cbn [py_min py_max bind]. rewrite Hsdk. cbn [negb].
    rewrite Hbody. unfold except_Exception. rewrite Hexc.
    eexists. split; [reflexivity|]. repeat split.
  - intros w' n qs Hnone. unfold run_qsharp_test. rewrite Hnone. reflexivity.
  - intros w' Hmissing. unfold run_qsharp_test.
    rewrite Hnum, Hmissing. reflexivity.
  - intros w' Hthere. unfold run_qsharp_test.
    rewrite Hnum, Hthere. reflexivity.
Qed.

End RunnerProperties.

(** C10, counterexample.  Test number 4 is not in [TESTS]: the runner
    raises [ValueError] to its caller and returns no dictionary. *)
Lemma invalid_test_number_propagates :
  run_qsharp_test round4_id corrcoef_one completing_world 4 "ionq.qpu" 100 None =
  Raise (mkExn ValueError "Invalid test number: 4. Must be 1, 2, or 3.").
Proof. vm_compute. reflexivity. Qed.

Lemma run_qsharp_test_catches_inside_try_witness :
  exists out : results float,
    run_qsharp_test round4_id corrcoef_one rejecting_world 1 "ionq.simulator" 100 None =
    Return out /\
    r_error out = Some "Q# compilation failed"%string /\
    r_passed out = Some false /\
    r_measurements out = [].
Proof.
  refine (proj1 (@run_qsharp_test_catches_inside_try
                   float _ round4_id corrcoef_one rejecting_world 1
                   "ionq.simulator" 100 None _ _
                   (mkExn RuntimeError "Q# compilation failed")
                   eq_refl eq_refl eq_refl _ eq_refl eq_refl)).
  discriminate.
Defined.

(** With [shots = 0] every job completes and the division
    [ones_count / shots] raises inside the [try]: the runner returns the
    error and the verdict [False]. *)
Example zero_shots_is_caught :
  exists out : results float,
    run_qsharp_test round4_id corrcoef_one completing_world 2 "ionq.simulator" 0 None =
    Return out /\
    r_error out = Some "division by zero"%string /\
    r_passed out = Some false.
Proof. eexists. split; [vm_compute; reflexivity|]. split; reflexivity. Qed.

(** ** The depth-scaling fit *)

(** *** Rational bounds on logarithms *)

Lemma ln_le_sub (t : R) : 0 < t -> ln t <= t - 1.
Proof.
  intros Ht. pose proof (exp_ineq1_le (ln t)) as Hexp.
  rewrite exp_ln in Hexp by exact Ht. lra.
Qed.

Lemma ln_monotone (x y : R) : 0 < x -> x <= y -> ln x <= ln y.
Proof.
  intros Hx [Hlt| ->]; [|lra].
  apply Rlt_le, ln_increasing; assumption.
Qed.

(** [ln t <= u] follows from [t <= (1 + u/n)^n]. *)
Lemma ln_upper (n : nat) (u t : R) :
  (0 < n)%nat -> 0 < t ->
  0 < 1 + u / IZR (Z.of_nat n) -> t <= (1 + u / IZR (Z.of_nat n)) ^ n ->
  ln t <= u.
Proof.
  intros Hn Ht Hs Hpow.
  assert (Hn' : 0 < IZR (Z.of_nat n)) by (apply IZR_lt; lia).
  apply Rle_trans with (ln ((1 + u / IZR (Z.of_nat n)) ^ n)).
  - apply ln_monotone; assumption.
  - rewrite ln_pow by exact Hs. rewrite INR_IZR_INZ.
    pose proof (ln_le_sub Hs) as Hl.
    replace u with (IZR (Z.of_nat n) * (1 + u / IZR (Z.of_nat n) - 1)) at 2
      by (field; lra).
    apply Rmult_le_compat_l; lra.
Qed.

(** [u <= ln t] follows from [1/t <= (1 - u/n)^n]. *)
Lemma ln_lower (n : nat) (u t : R) :
  (0 < n)%nat -> 0 < t ->
  0 < 1 - u / IZR (Z.of_nat n) -> / t <= (1 - u / IZR (Z.of_nat n)) ^ n ->
  u <= ln t.
Proof.
  intros Hn Ht Hs Hpow.
  assert (Hi : ln (/ t) <= - u).
  { apply (@ln_upper n); try assumption.
    - apply Rinv_0_lt_compat, Ht.
    - replace (1 + - u / IZR (Z.of_nat n)) with (1 - u / IZR (Z.of_nat n))
        by (unfold Rdiv; lra).
      exact Hs.
    - replace (1 + - u / IZR (Z.of_nat n)) with (1 - u / IZR (Z.of_nat n))
        by (unfold Rdiv; lra).
      exact Hpow. }
  rewrite ln_Rinv in Hi by exact Ht. lra.
Qed.

Ltac ln_bound lem :=
  apply (@lem 128%nat); [lia | lra | |];
  change (Z.of_nat 128) with 128%Z; lra.

Lemma ln_090_bounds : - 1055 / 10000 <= ln (9 / 10) <= - 1053 / 10000.
Proof. split; [ln_bound ln_lower | ln_bound ln_upper]. Qed.

Lemma ln_081_bounds : - 2109 / 10000 <= ln (81 / 100) <= - 2105 / 10000.
Proof. split; [ln_bound ln_lower | ln_bound ln_upper]. Qed.

Lemma ln_0656_bounds : - 4223 / 10000 <= ln (656 / 1000) <= - 4209 / 10000.
Proof. split; [ln_bound ln_lower | ln_bound ln_upper]. Qed.

Lemma ln_0532_bounds : - 6327 / 10000 <= ln (532 / 1000) <= - 6295 / 10000.
Proof. split; [ln_bound ln_lower | ln_bound ln_upper]. Qed.

(** *** The fit on five depths *)

Lemma np_log_pos (v : R) : 0 < v -> np_log v = Finite (ln v).
Proof.
  intros Hv. unfold np_log. destruct (Rlt_dec 0 v); [reflexivity|contradiction].
Qed.

Lemma np_log_zero : np_log 0 = NegInf.
Proof.
  unfold np_log. destruct (Rlt_dec 0 0); [lra|].
  destruct (Req_dec_T 0 0); [reflexivity|congruence].
Qed.

Lemma polyfit1_layers (y1 y2 y3 y4 y5 : R) :
  polyfit1 scenario_depths [y1; y2; y3; y4; y5] =
  ((- 26 * y1 - 21 * y2 - 11 * y3 + 9 * y4 + 49 * y5) / 744,
   (y1 + y2 + y3 + y4 + y5
    - 31 * ((- 26 * y1 - 21 * y2 - 11 * y3 + 9 * y4 + 49 * y5) / 744)) / 5).
Proof.
  unfold polyfit1, scenario_depths, fsum, of_nat, sq.
  cbn [length map combine fold_left fst snd Z.of_nat].
  real_ops. f_equal; field.
Qed.

Lemma ln_scaled (c r : R) : 0 < c -> 0 < r -> ln (c * r) = ln c + ln r.
Proof. intros Hc Hr. apply ln_mult; assumption. Qed.

Lemma scenario_log_var :
  log_var scenario_variances =
  [Finite (ln (1 / 4));
   Finite (ln (1 / 4) + ln (9 / 10));
   Finite (ln (1 / 4) + ln (81 / 100));
   Finite (ln (1 / 4) + ln (656 / 1000));
   Finite (ln (1 / 4) + ln (532 / 1000))].
Proof.
  unfold log_var, log_arguments, scenario_variances.
  cbn [map]. unfold Q2R. cbn [Qnum Qden].
  replace (25 * / 100) with (1 / 4) by lra.
  replace (225 * / 1000) with (1 / 4 * (9 / 10)) by lra.
  replace (2025 * / 10000) with (1 / 4 * (81 / 100)) by lra.
  replace (164 * / 1000) with (1 / 4 * (656 / 1000)) by lra.
  replace (133 * / 1000) with (1 / 4 * (532 / 1000)) by lra.
  rewrite !np_log_pos by lra.
  rewrite !ln_scaled by lra.
  reflexivity.
Qed.

Lemma scenario_fit :
  depth_fit scenario_depths scenario_variances =
  Some (polyfit1 scenario_depths
          [ln (1 / 4);
           ln (1 / 4) + ln (9 / 10);
           ln (1 / 4) + ln (81 / 100);
           ln (1 / 4) + ln (656 / 1000);
           ln (1 / 4) + ln (532 / 1000)]).
Proof. unfold depth_fit. rewrite scenario_log_var. reflexivity. Qed.

Lemma scenario_slope_bounds :
  exists coeffs : R * R,
    depth_fit scenario_depths scenario_variances = Some coeffs /\
    - 407 / 10000 < fst coeffs < - 404 / 10000.
Proof.
  eexists. split; [apply scenario_fit|].
  rewrite polyfit1_layers. cbn [fst].
  pose proof ln_090_bounds. pose proof ln_081_bounds.
  pose proof ln_0656_bounds. pose proof ln_0532_bounds.
  lra.
Qed.

(** *** The noise-free run of the depth loop *)

Lemma fpow_R (x : R) (n : nat) : fpow x n = x ^ n.
Proof.
  induction n as [|n IH]; cbn [fpow pow]; real_ops; [reflexivity|].
  rewrite IH. reflexivity.
Qed.

Lemma depth_variance_R (n : nat) (noise : R) :
  depth_variance n noise =
  if Rlt_dec 0 (1 / 4 * (9 / 10) ^ n + noise)
  then 1 / 4 * (9 / 10) ^ n + noise else 0.
Proof.
  unfold depth_variance, py_max2. cbv zeta. rewrite fpow_R. real_ops.
  replace (25 * / 100) with (1 / 4) by lra.
  replace (9 * / 10) with (9 / 10) by lra.
  unfold Rltb. destruct (Rlt_dec 0 _); reflexivity.
Qed.

Lemma depth_variance_nonneg (n : nat) (noise : R) : 0 <= depth_variance n noise.
Proof.
  rewrite depth_variance_R. destruct (Rlt_dec 0 _); lra.
Qed.

Lemma depths_of_depth_results (noise : nat -> R) :
  depths_of (depth_results noise) = scenario_depths.
Proof.
  unfold depths_of, depth_results, enumerate, layer_depths, scenario_depths.
  cbn [map combine seq length fst snd].
  rewrite !INR_IZR_INZ. reflexivity.
Qed.

Lemma noise_free_fit :
  depth_fit (depths_of (@depth_results R _ (fun _ => 0)))
            (variances_of (@depth_results R _ (fun _ => 0))) =
  Some (ln (9 / 10), ln (1 / 4)).
Proof.
  rewrite depths_of_depth_results.
  unfold depth_fit, log_var, log_arguments, variances_of, depth_results,
    enumerate, layer_depths.
  cbn [map combine seq length fst snd].
  rewrite !depth_variance_R.
  repeat match goal with
         | |- context [Rlt_dec 0 ?v] =>
             destruct (Rlt_dec 0 v) as [_|Hn]; [|exfalso; apply Hn; lra]
         end.
  rewrite !np_log_pos by lra. cbn [all_finite].
  rewrite !Rplus_0_r.
  rewrite !ln_scaled by lra.
  rewrite !ln_pow by lra.
  rewrite polyfit1_layers, !INR_IZR_INZ. cbn [Z.of_nat Pos.of_succ_nat Pos.succ].
  f_equal. f_equal; field.
Qed.

(** C4, counterexample.  On the table of the scenario the fit is defined
    and its rate, below 0.0407, misses [-ln 0.9 > 0.1053] by more than
    0.06, which is more than half of the rate to be recovered. *)
Lemma scenario_rate_misses_ln_09 :
  exists coeffs : R * R,
    depth_fit scenario_depths scenario_variances = Some coeffs /\
    decay_rate coeffs < 407 / 10000 /\
    1053 / 10000 <= - ln (9 / 10) /\
    6 / 100 < - ln (9 / 10) - decay_rate coeffs.
Proof.
  destruct scenario_slope_bounds as (coeffs & Hfit & Hlo & Hhi).
  pose proof ln_090_bounds as [_ Hln].
  exists coeffs. unfold decay_rate.
  rewrite Rabs_left by lra.
  repeat split; try assumption; lra.
Qed.

(** C4, amended.  On depths [1, 2, 4, 8, 16] and variances
    [0.25, 0.225, 0.2025, 0.164, 0.133] the least-squares fit of
    [log(variance)] against depth has a negative slope and reports a
    decay rate between 0.0404 and 0.0407, while [-ln 0.9] lies between
    0.1053 and 0.1055.  The rate [-ln 0.9] is what the fit returns on the
    variances [0.25 * 0.9 ** depth] that the depth loop produces without
    noise. *)
Theorem scenario_fit_rate :
  (exists coeffs : R * R,
      depth_fit scenario_depths scenario_variances = Some coeffs /\
      fst coeffs < 0 /\
      decay_rate coeffs = - fst coeffs /\
      404 / 10000 < decay_rate coeffs < 407 / 10000) /\
  1053 / 10000 <= - ln (9 / 10) <= 1055 / 10000 /\
  depth_fit (depths_of (@depth_results R _ (fun _ => 0)))
            (variances_of (@depth_results R _ (fun _ => 0))) =
  Some (ln (9 / 10), ln (1 / 4)) /\
  decay_rate (ln (9 / 10), ln (1 / 4)) = - ln (9 / 10).
Proof.
  pose proof ln_090_bounds as [Hl Hu].
  split; [|split; [|split]].
  - destruct scenario_slope_bounds as (coeffs & Hfit & Hlo & Hhi).
    exists coeffs. unfold decay_rate. rewrite Rabs_left by lra.
    repeat split; try assumption; lra.
  - lra.
  - exact noise_free_fit.
  - unfold decay_rate. cbn [fst]. apply Rabs_left. lra.
Qed.

(** C5.  The clamp of the depth loop keeps every variance non-negative
    and lets zero through.  On the run [unlucky_noise] the variance
    recorded at depth 16 is exactly 0; the figure script passes it to
    [np.log] unchanged, the logarithm is [-inf], and the fit is
    undefined. *)
Theorem log_applied_to_zero_variance :
  (forall (n : nat) (noise : R), 0 <= depth_variance n noise) /\
  depth_variance 16 (unlucky_noise 4) = 0 /\
  In (16%nat, 0) (depth_results unlucky_noise) /\
  In 0 (log_arguments (variances_of (depth_results unlucky_noise))) /\
  In NegInf (log_var (variances_of (depth_results unlucky_noise))) /\
  depth_fit (depths_of (depth_results unlucky_noise))
            (variances_of (depth_results unlucky_noise)) = None.
Proof.
  assert (Hz : depth_variance 16 (unlucky_noise 4) = 0).
  { rewrite depth_variance_R. unfold unlucky_noise. cbn [Nat.eqb].
    destruct (Rlt_dec 0 _) as [Hp|_]; [lra|reflexivity]. }
  assert (Hvs : variances_of (depth_results unlucky_noise) =
                [depth_variance 1 0; depth_variance 2 0; depth_variance 4 0;
                 depth_variance 8 0; 0]).
  { unfold variances_of, depth_results, enumerate, layer_depths.
    cbn [map combine seq length fst snd]. rewrite Hz. reflexivity. }
  assert (Hpos : forall n, (n <= 8)%nat -> 0 < depth_variance n 0).
  { intros n Hn. rewrite depth_variance_R.
    assert (Hpow : 0 < (9 / 10) ^ n) by (apply pow_lt; lra).
    destruct (Rlt_dec 0 _) as [Hp|Hp]; lra. }
  split; [exact depth_variance_nonneg|].
  split; [exact Hz|].
  split.
  { unfold depth_results, enumerate, layer_depths.
    cbn [map combine seq length fst snd]. rewrite Hz.
    do 4 right. left. reflexivity. }
  split.
  { unfold log_arguments. rewrite Hvs. do 4 right. left. reflexivity. }
  split.
  { unfold log_var, log_arguments. rewrite Hvs. cbn [map].
    rewrite np_log_zero. do 4 right. left. reflexivity. }
  unfold depth_fit, log_var, log_arguments. rewrite Hvs. cbn [map].
  rewrite np_log_zero, !np_log_pos by (apply Hpos; lia).
  reflexivity.
Qed.

(** ** Remarks on binary64 *)

(** The mirror identity of the sensitivity is exact in the reals; in
    binary64 the values at the script's points 0.45 and 0.55 are
    opposite up to rounding only: their sum is not zero and is below
    [1e-15] in magnitude. *)
Remark sensitivity_mirror_in_binary64 :
  match @sensitivity float _ (lit 0.45), @sensitivity float _ (lit 0.55) with
  | Return a, Return b =>
      negb (feqb (fadd a b) (lit 0)) &&
      ltb (fabs (fadd a b)) (lit 0.000000000000001)
  | _, _ => false
  end = true.
Proof. vm_compute. reflexivity. Qed.

(** * Further properties of the scripts *)

(** ** test_semicircle_constraint.py *)

(** X1.  Whatever the noisy probability, the clipped value lies in
    [[0.001, 0.999]], so [q (1 - q)] is positive, the guard [max(0, .)]
    of lines 47 and 64 returns its second argument, and the residual
    that is appended is 0 in exact arithmetic. *)
Theorem clip_keeps_radicand_positive (q_raw : R) :
  1 / 1000 <= np_clip q_raw (lit 0.001) (lit 0.999) <= 999 / 1000 /\
  0 < np_clip q_raw (lit 0.001) (lit 0.999)
      * (1 - np_clip q_raw (lit 0.001) (lit 0.999)) /\
  py_max2 (lit 0) (np_clip q_raw (lit 0.001) (lit 0.999)
                   * (1 - np_clip q_raw (lit 0.001) (lit 0.999)))
  = np_clip q_raw (lit 0.001) (lit 0.999)
    * (1 - np_clip q_raw (lit 0.001) (lit 0.999)) /\
  measured_residual q_raw = 0.
Proof.
  set (q := np_clip q_raw (lit 0.001) (lit 0.999)).
  assert (Hq : 1 / 1000 <= q <= 999 / 1000).
  { pose proof (@np_clip_bounds q_raw (lit 0.001) (lit 0.999)) as Hb.
    fold q in Hb. real_ops. lra. }
  clearbody q.
  split; [exact Hq|]. split; [nra|]. split.
  - unfold py_max2. real_ops. rewrite Rltb_lt by nra. reflexivity.
  - apply measured_residual_zero.
Qed.

(** X2.  In exact arithmetic the semicircle test passes for every noise
    and every non-empty list of drawn states: both RMS values and the
    largest residual are 0, the mean radius is 0.5 and its standard
    deviation 0. *)
Theorem semicircle_test_passes_for_every_draw
        (noise : nat -> R) (q_drawn : list R) (Hne : q_drawn <> []) :
  run_test26_semicircle_constraint noise q_drawn =
  Return (mkTest26 true 0 0 0 (1 / 2) 0).
Proof.
  destruct q_drawn as [|q qs]; [congruence|]. apply run_test26_exact.
Qed.

Lemma semicircle_test_passes_for_every_draw_witness :
  run_test26_semicircle_constraint (fun _ => 3) [- 2; 7] =
  Return (mkTest26 true 0 0 0 (1 / 2) 0).
Proof.
  apply semicircle_test_passes_for_every_draw. discriminate.
Defined.

Lemma fold_py_max2_spec (xs : list R) (x : R) :
  let m := fold_left py_max2 xs x in
  x <= m /\ Forall (fun y => y <= m) xs /\ In m (x :: xs).
Proof.
  revert x. induction xs as [|y ys IH]; intros x; cbn [fold_left].
  - split; [lra|]. split; [constructor|left; reflexivity].
  - specialize (IH (py_max2 x y)). cbv zeta in IH.
    destruct IH as (Hge & Hall & Hin).
    assert (Hstep : x <= py_max2 x y /\ y <= py_max2 x y /\
                    (py_max2 x y = x \/ py_max2 x y = y)).
    { unfold py_max2. real_ops. unfold Rltb.
      destruct (Rlt_dec x y); repeat split; try lra; auto. }
    destruct Hstep as (Hx & Hy & Hor).
    split; [lra|]. split.
    + constructor; [lra|exact Hall].
    + destruct Hin as [Hm|Hm].
      * rewrite <- Hm. destruct Hor as [Ho|Ho]; rewrite Ho.
        -- left. reflexivity.
        -- right. left. reflexivity.
      * right. right. exact Hm.
Qed.

Lemma fsum_le_const (c : R) (xs : list R) :
  Forall (fun x => x <= c) xs -> fsum xs <= INR (length xs) * c.
Proof.
  induction 1 as [|x xs Hx _ IH].
  - rewrite fsum_nil. simpl. lra.
  - rewrite fsum_cons. change (length (x :: xs)) with (S (length xs)).
    rewrite S_INR. lra.
Qed.

Lemma fsum_nonneg (xs : list R) :
  Forall (fun x => 0 <= x) xs -> 0 <= fsum xs.
Proof.
  induction 1 as [|x xs Hx _ IH].
  - rewrite fsum_nil. lra.
  - rewrite fsum_cons. lra.
Qed.

(** X3.  On a non-empty list of non-negative residuals the maximum
    returned by [max] is an element of the list that bounds every
    element, and the RMS lies between 0 and that maximum. *)
Theorem rms_between_zero_and_max
        (xs : list R) (m : R)
        (Hnonneg : Forall (fun x => 0 <= x) xs)
        (Hmax : py_max xs = Return m) :
  In m xs /\ Forall (fun x => x <= m) xs /\ 0 <= rms xs <= m.
Proof.
  destruct xs as [|x rest]; [discriminate|].
  cbn [py_max] in Hmax. injection Hmax as Hm.
  pose proof (fold_py_max2_spec rest x) as Hspec. cbv zeta in Hspec.
  rewrite Hm in Hspec. destruct Hspec as (Hx & Hall & Hin). clear Hm.
  assert (Hbound : Forall (fun y => y <= m) (x :: rest))
    by (constructor; assumption).
  split; [exact Hin|]. split; [exact Hbound|].
  assert (Hm0 : 0 <= m) by (inversion Hnonneg; subst; lra).
  unfold rms, np_mean. real_ops. rewrite of_nat_R, length_map.
  set (n := INR (length (x :: rest))).
  assert (Hn : 0 < n) by (apply lt_0_INR; simpl; lia).
  assert (Hsq : Forall (fun y => 0 <= y <= m * m) (map sq (x :: rest))).
  { rewrite Forall_map, Forall_forall. intros y Hy.
    rewrite Forall_forall in Hnonneg, Hbound.
    specialize (Hnonneg y Hy). specialize (Hbound y Hy).
    unfold sq. real_ops. nra. }
  assert (Hlo : 0 <= fsum (map sq (x :: rest))).
  { apply fsum_nonneg. eapply Forall_impl; [|exact Hsq]. intros; lra. }
  assert (Hhi : fsum (map sq (x :: rest)) <= n * (m * m)).
  { unfold n. rewrite <- (length_map sq (x :: rest)).
    apply fsum_le_const. eapply Forall_impl; [|exact Hsq]. intros; lra. }
  split; [apply sqrt_pos|].
  rewrite <- (sqrt_square m) by exact Hm0.
  apply sqrt_le_1_alt.
  apply (Rmult_le_reg_r n); [exact Hn|].
  unfold Rdiv. rewrite Rmult_assoc, Rinv_l by lra. lra.
Qed.

Lemma rms_between_zero_and_max_witness :
  In 2 [1; 2] /\ Forall (fun x => x <= 2) [1; 2] /\ 0 <= rms [1; 2] <= 2.
Proof.
  apply rms_between_zero_and_max.
  - repeat constructor; lra.
  - cbn [py_max fold_left]. unfold py_max2. real_ops.
    rewrite Rltb_lt by lra. reflexivity.
Defined.

(** X4.  [np.linspace(start, stop, num)] has [num] points and, from two
    points on, ends exactly on [stop]; over the reals it starts on
    [start] and, for [start <= stop], stays between the two.  The grids
    of the semicircle test therefore lie inside [[0.01, 0.99]]. *)
Theorem linspace_grid :
  (forall (F : Type) (ops : PyFloat F) (a b : F) (num : nat),
      length (linspace a b num) = num) /\
  (forall (F : Type) (ops : PyFloat F) (a b : F) (d : nat),
      last (linspace a b (S (S d))) a = b) /\
  (forall (a b : R) (num : nat), hd a (linspace a b (S num)) = a) /\
  (forall (a b : R) (num : nat),
      a <= b -> Forall (fun x => a <= x <= b) (linspace a b num)) /\
  Forall (fun q : R => 1 / 100 <= q <= 99 / 100)
         (linspace (lit 0.01) (lit 0.99) 50) /\
  Forall (fun q : R => 1 / 100 <= q <= 99 / 100)
         (linspace (lit 0.01) (lit 0.99) 100).
Proof.
  split; [intros F ops a b num; apply linspace_length|].
  split; [intros F ops a b d; rewrite linspace_SS; apply last_last|].
  split.
  { intros a b [|d]; [reflexivity|]. rewrite linspace_SS.
    cbn [seq map app hd]. rewrite of_nat_R. real_ops. simpl INR. lra. }
  split; [exact linspace_bounds|].
  split.
  - eapply Forall_impl; [|apply linspace_bounds; real_ops; lra].
    intros q Hq. real_ops. lra.
  - eapply Forall_impl; [|apply linspace_bounds; real_ops; lra].
    intros q Hq. real_ops. lra.
Qed.

(** ** test_optimal_operating_point.py *)

Lemma np_clip_inside (x lo hi : R) : lo <= x <= hi -> np_clip x lo hi = x.
Proof.
  intros Hx. unfold np_clip. real_ops.
  rewrite !Rltb_ge by lra. reflexivity.
Qed.

Lemma descent_step_range (draw q : R) :
  in_descent_range (descent_step draw q).
Proof.
  unfold descent_step. cbv zeta.
  match goal with
  | |- in_descent_range (np_clip ?x _ _) =>
      pose proof (@np_clip_bounds x (lit 0.01) (lit 0.99)) as Hb
  end.
  unfold in_descent_range. real_ops. lra.
Qed.

Lemma descent_step_noise_free (q : R) :
  Rabs (q - 1 / 2) <= 2 / 5 ->
  descent_step 0 q = 1 / 2 + 4 / 5 * (q - 1 / 2).
Proof.
  intros Hq.
  assert (Hlt : Rabs (q - 1 / 2) < 41 / 100) by lra.
  apply Rabs_def2 in Hlt.
  unfold descent_step. cbv zeta.
  rewrite np_clip_inside by (real_ops; lra).
  real_ops. lra.
Qed.

Lemma descent_loop_spec (noise : nat -> R) (fuel : nat) :
  forall (i : nat) (q : R),
    (i <= fst (descent_loop noise fuel i q) <= i + fuel)%nat /\
    ((0 < fuel)%nat -> (i < fst (descent_loop noise fuel i q))%nat) /\
    ((fst (descent_loop noise fuel i q) < i + fuel)%nat ->
     Rabs (snd (descent_loop noise fuel i q) - 1 / 2) < 1 / 20) /\
    ((0 < fuel)%nat \/ in_descent_range q ->
     in_descent_range (snd (descent_loop noise fuel i q))).
Proof.
  induction fuel as [|fuel IH]; intros i q.
  - cbn [descent_loop fst snd].
    split; [lia|]. split; [lia|]. split; [lia|].
    intros [Hf|Hq]; [lia|exact Hq].
  - cbn [descent_loop]. cbv zeta.
    set (q' := descent_step (noise i) q).
    assert (Hq' : in_descent_range q') by apply descent_step_range.
    destruct (ltb (fabs (fsub q' (lit 0.5))) (lit 0.05)) eqn:Hcond.
    + cbn [fst snd]. split; [lia|]. split; [lia|]. split.
      * intros _. real_ops. apply Rltb_true in Hcond.
        replace (1 / 2) with (5 * / 10) by lra. lra.
      * intros _. exact Hq'.
    + specialize (IH (S i) q'). destruct IH as (Hn & Hpos & Hconv & Hrange).
      split; [lia|]. split; [lia|]. split.
      * intros Hlt. apply Hconv. lia.
      * intros _. apply Hrange. right. exact Hq'.
Qed.

(** X5.  Whatever the noise and the starting point, the descent of
    lines 58-69 reports between 1 and 100 iterations and a final [q]
    inside [[0.01, 0.99]]; a report of fewer than 100 iterations means
    that the final [q] is within 0.05 of the target 0.5. *)
Theorem convergence_result_bounds (noise : nat -> R) (q_init : R) :
  (1 <= fst (convergence_result noise q_init) <= 100)%nat /\
  1 / 100 <= snd (convergence_result noise q_init) <= 99 / 100 /\
  ((fst (convergence_result noise q_init) < 100)%nat ->
   Rabs (snd (convergence_result noise q_init) - 1 / 2) < 1 / 20).
Proof.
  unfold convergence_result.
  destruct (descent_loop_spec noise 100 0 q_init) as (Hn & Hpos & Hconv & Hr).
  split; [|split].
  - specialize (Hpos ltac:(lia)). lia.
  - apply Hr. left. lia.
  - intros Hlt. apply Hconv. lia.
Qed.

Lemma descent_noise_free (m : nat) :
  forall (fuel i : nat) (q B : R),
    Rabs (q - 1 / 2) <= B -> B <= 2 / 5 ->
    B * (4 / 5) ^ S m < 1 / 20 -> (S m <= fuel)%nat ->
    (fst (descent_loop (fun _ => 0%R) fuel i q) <= i + S m)%nat /\
    Rabs (snd (descent_loop (fun _ => 0%R) fuel i q) - 1 / 2) < 1 / 20.
Proof.
  induction m as [|m IH]; intros fuel i q B Hq HB Hpow Hfuel;
    (destruct fuel as [|fuel]; [lia|]);
    cbn [descent_loop]; cbv zeta;
    rewrite descent_step_noise_free by lra;
    set (q' := 1 / 2 + 4 / 5 * (q - 1 / 2));
    (assert (Hq' : Rabs (q' - 1 / 2) <= 4 / 5 * B);
     [subst q'; replace (1 / 2 + 4 / 5 * (q - 1 / 2) - 1 / 2)
        with (4 / 5 * (q - 1 / 2)) by lra;
      rewrite Rabs_mult, (Rabs_right (4 / 5)) by lra; lra|]);
    destruct (ltb (fabs (fsub q' (lit 0.5))) (lit 0.05)) eqn:Hcond;
    real_ops; replace (5 * / 10) with (1 / 2) in Hcond by lra.
  - cbn [fst snd]. split; [lia|]. apply Rltb_true in Hcond. lra.
  - exfalso. apply Rltb_false in Hcond. simpl in Hpow. lra.
  - cbn [fst snd]. split; [lia|]. apply Rltb_true in Hcond. lra.
  - assert (HB0 : 0 <= B) by (pose proof (Rabs_pos (q - 1 / 2)); lra).
    destruct (IH fuel (S i) q' (4 / 5 * B)) as (Hn & Hc); try lia; try lra.
    + change ((4 / 5) ^ S (S m)) with (4 / 5 * (4 / 5) ^ S m) in Hpow. lra.
    + split; [lia|exact Hc].
Qed.

(** X6.  Without noise, a start within 0.4 of the target is carried to
    within 0.05 of it in at most 10 iterations: every step multiplies the
    distance to 0.5 by 0.8 and the clip never acts. *)
Theorem noise_free_descent_converges
        (q_init : R) (Hq : Rabs (q_init - 1 / 2) <= 2 / 5) :
  (1 <= fst (convergence_result (fun _ => 0%R) q_init) <= 10)%nat /\
  Rabs (snd (convergence_result (fun _ => 0%R) q_init) - 1 / 2) < 1 / 20.
Proof.
  unfold convergence_result.
  destruct (@descent_noise_free 9 100 0 q_init (2 / 5)) as (Hn & Hc);
    try lia; try lra.
  destruct (descent_loop_spec (fun _ => 0%R) 100 0 q_init) as (_ & Hpos & _).
  specialize (Hpos ltac:(lia)).
  split; [lia|exact Hc].
Qed.

Lemma noise_free_descent_converges_witness :
  (1 <= fst (convergence_result (fun _ => 0%R) (1 / 10)%R) <= 10)%nat /\
  Rabs (snd (convergence_result (fun _ => 0%R) (1 / 10)) - 1 / 2) < 1 / 20.
Proof.
  apply noise_free_descent_converges.
  replace (1 / 10 - 1 / 2) with (- (2 / 5)) by lra.
  rewrite Rabs_Ropp, Rabs_right; lra.
Defined.

(** X7.  On the open interval (0,1) the sensitivity is positive below
    [q = 0.5], negative above it, and zero only at [q = 0.5]. *)
Theorem sensitivity_sign (q : R) (Hq : 0 < q < 1) :
  exists d : R,
    sensitivity q = Return d /\
    (q < 1 / 2 -> 0 < d) /\
    (1 / 2 < q -> d < 0) /\
    (d = 0 <-> q = 1 / 2).
Proof.
  assert (Hc : 0 < c_qc q) by (apply c_qc_pos_iff; nra).
  exists ((1 - 2 * q) / (2 * c_qc q)).
  rewrite sensitivity_R.
  destruct (Rlt_dec 0 (c_qc q)) as [_|Hn]; [|contradiction].
  split; [reflexivity|].
  assert (Hk : 0 < / (2 * c_qc q)) by (apply Rinv_0_lt_compat; lra).
  unfold Rdiv. set (k := / (2 * c_qc q)) in *. clearbody k.
  repeat split; intros; nra.
Qed.

Lemma sensitivity_sign_witness :
  exists d : R, @sensitivity R _ (1 / 4) = Return d /\ 0 < d.
Proof.
  assert (H : 0 < 1 / 4 < 1) by lra.
  destruct (@sensitivity_sign (1 / 4) H) as (d & Hd & Hpos & _).
  exists d. split; [exact Hd|]. apply Hpos. lra.
Defined.

Lemma fold_max_by_spec (A : Type) (key : A -> R) (xs : list A) (x : A) :
  let m := fold_left (fun m y => if ltb (key m) (key y) then y else m) xs x in
  key x <= key m /\ Forall (fun y => key y <= key m) xs /\ In m (x :: xs).
Proof.
  revert x. induction xs as [|y ys IH]; intros x; cbn [fold_left].
  - split; [lra|]. split; [constructor|left; reflexivity].
  - set (x' := if ltb (key x) (key y) then y else x).
    specialize (IH x'). cbv zeta in IH. destruct IH as (Hge & Hall & Hin).
    assert (Hstep : key x <= key x' /\ key y <= key x' /\ (x' = x \/ x' = y)).
    { subst x'. real_ops. unfold Rltb.
      destruct (Rlt_dec (key x) (key y)); repeat split; try lra; auto. }
    destruct Hstep as (Hx & Hy & Hor).
    split; [lra|]. split.
    + constructor; [lra|exact Hall].
    + destruct Hin as [Hm|Hm].
      * rewrite <- Hm. destruct Hor as [Ho|Ho]; rewrite Ho.
        -- left. reflexivity.
        -- right. left. reflexivity.
      * right. right. exact Hm.
Qed.

Lemma efficiency_R (q : R) : efficiency q = q * (1 - q).
Proof. unfold efficiency. real_ops. reflexivity. Qed.

Lemma efficiency_quarter_iff (q : R) : efficiency q = 1 / 4 <-> q = 1 / 2.
Proof.
  rewrite efficiency_R. split; intros Hq; [|subst; lra].
  assert (Hs : (q - 1 / 2) * (q - 1 / 2) = 0) by lra.
  apply Rmult_integral in Hs. lra.
Qed.

(** X8.  The efficiency [q (1 - q)] is the square of [C_qc] on [[0, 1]]
    and never exceeds 1/4, a value it takes only at [q = 0.5]; hence
    [max(efficiencies, key=...)] picks [q = 0.5] from every list of
    points in which 0.5 occurs. *)
Theorem max_efficiency_at_half (qs : list R) (Hin : In (1 / 2) qs) :
  max_eff_q qs = Return (1 / 2) /\
  (forall q : R, efficiency q <= 1 / 4) /\
  (forall q : R, efficiency q = 1 / 4 <-> q = 1 / 2) /\
  (forall q : R, 0 <= q <= 1 -> efficiency q = c_qc q ^ 2).
Proof.
  assert (Hle : forall q : R, efficiency q <= 1 / 4).
  { intros q. rewrite efficiency_R.
    pose proof (Rle_0_sqr (q - 1 / 2)) as Hsq. unfold Rsqr in Hsq. lra. }
  split; [|split; [exact Hle|split; [exact efficiency_quarter_iff|]]].
  - unfold max_eff_q, py_max_by.
    destruct qs as [|x rest]; [destruct Hin|]. f_equal.
    pose proof (fold_max_by_spec efficiency rest x) as Hspec.
    cbv zeta in Hspec. destruct Hspec as (Hx & Hall & _).
    set (m := fold_left _ rest x) in *.
    apply efficiency_quarter_iff.
    assert (Hhalf : efficiency (1 / 2) <= efficiency m).
    { destruct Hin as [Hh|Hh]; [rewrite <- Hh; exact Hx|].
      rewrite Forall_forall in Hall. apply Hall, Hh. }
    pose proof (Hle m) as Hm.
    assert (Hq : efficiency (1 / 2) = 1 / 4) by (apply efficiency_quarter_iff; reflexivity).
    lra.
  - intros q Hq. rewrite efficiency_R.
    replace (c_qc q ^ 2) with (c_qc q * c_qc q) by ring.
    symmetry. apply c_qc_sq, Hq.
Qed.

Lemma max_efficiency_at_half_witness :
  max_eff_q [1 / 10; 1 / 4; 1 / 2; 3 / 4; 9 / 10] = Return (1 / 2).
Proof.
  apply max_efficiency_at_half. right. right. left. reflexivity.
Defined.

(** ** test_barren_plateau_geometry.py *)

Lemma training_step_R (q grad loss : R) :
  training_step q grad loss =
  if Rlt_dec 0 (loss - 1 / 10 * sqrt (q * (1 - q)) * Rabs grad)
  then loss - 1 / 10 * sqrt (q * (1 - q)) * Rabs grad else 0.
Proof.
  unfold training_step, py_max2. cbv zeta. real_ops.
  replace (1 * / 10) with (1 / 10) by lra.
  unfold Rltb. destruct (Rlt_dec 0 _); reflexivity.
Qed.

Lemma training_step_range (q grad loss : R) :
  0 <= loss -> 0 <= training_step q grad loss <= loss.
Proof.
  intros Hl. rewrite training_step_R.
  pose proof (sqrt_pos (q * (1 - q))) as Hs.
  pose proof (Rabs_pos grad) as Hg.
  assert (Hd : 0 <= 1 / 10 * sqrt (q * (1 - q)) * Rabs grad).
  { apply Rmult_le_pos; [|exact Hg]. lra. }
  destruct (Rlt_dec 0 _); lra.
Qed.

Lemma loss_history_spec (q : R) (grads : list R) :
  forall loss : R,
    0 <= loss ->
    length (loss_history q grads loss) = length grads /\
    Forall (fun l => 0 <= l <= loss) (loss_history q grads loss) /\
    StronglySorted (fun earlier later => later <= earlier)
                   (loss_history q grads loss).
Proof.
  induction grads as [|g rest IH]; intros loss Hl; cbn [loss_history].
  - split; [reflexivity|]. split; constructor.
  - cbv zeta. pose proof (training_step_range q g Hl) as Hstep.
    destruct (IH (training_step q g loss)) as (Hlen & Hall & Hsorted); [lra|].
    split; [cbn [length]; congruence|]. split.
    + constructor; [lra|].
      eapply Forall_impl; [|exact Hall]. cbv beta. intros l Hb. lra.
    + constructor; [exact Hsorted|].
      eapply Forall_impl; [|exact Hall]. cbv beta. intros l Hb. lra.
Qed.

(** X9.  For every operating point and every sequence of gradient
    draws, the loss history of lines 93-104 has one entry per draw, stays
    between 0 and the initial loss 1.0, and never increases. *)
Theorem loss_history_decreases_within_unit (q : R) (grads : list R) :
  length (loss_history q grads (lit 1)) = length grads /\
  Forall (fun l => 0 <= l <= 1) (loss_history q grads (lit 1)) /\
  StronglySorted (fun earlier later => later <= earlier)
                 (loss_history q grads (lit 1)).
Proof.
  real_ops. apply loss_history_spec. lra.
Qed.

(** X10.  At the classical limits [q = 0] and [q = 1] the gradient
    variance [q (1 - q)] is zero and the loss never moves: every entry of
    the history is the initial loss 1.0, whatever the draws. *)
Theorem training_stalls_at_classical_limits
        (q : R) (grads : list R) (Hq : q = 0 \/ q = 1) :
  loss_history q grads (lit 1) = repeat 1 (length grads).
Proof.
  real_ops.
  assert (Hstep : forall g, training_step q g 1 = 1).
  { intros g. rewrite training_step_R.
    replace (q * (1 - q)) with 0 by (destruct Hq; subst; lra).
    rewrite sqrt_0.
    replace (1 - 1 / 10 * 0 * Rabs g) with 1 by lra.
    destruct (Rlt_dec 0 1); [reflexivity|lra]. }
  induction grads as [|g rest IH]; cbn [loss_history length repeat].
  - reflexivity.
  - cbv zeta. rewrite Hstep, IH. reflexivity.
Qed.

Lemma training_stalls_at_classical_limits_witness :
  loss_history 0 [3; - 2; 5] (lit 1) = [1; 1; 1].
Proof.
  apply (@training_stalls_at_classical_limits 0 [3; - 2; 5]).
  left. reflexivity.
Defined.

Lemma all_finite_log_var (variances : list R) :
  Forall (fun v => 0 < v) variances ->
  all_finite (log_var variances) = Some (map ln variances).
Proof.
  unfold log_var, log_arguments.
  induction 1 as [|v vs Hv _ IH]; cbn [map all_finite]; [reflexivity|].
  rewrite np_log_pos by exact Hv. rewrite IH. reflexivity.
Qed.

Lemma all_finite_positive (variances : list R) (ys : list R) :
  all_finite (log_var variances) = Some ys ->
  Forall (fun v => 0 < v) variances.
Proof.
  unfold log_var, log_arguments. revert ys.
  induction variances as [|v vs IH]; intros ys Hfin; [constructor|].
  cbn [map all_finite] in Hfin. unfold np_log in Hfin at 1.
  destruct (Rlt_dec 0 v) as [Hv|Hv].
  - destruct (all_finite (map np_log vs)) as [zs|] eqn:Hzs; [|discriminate].
    constructor; [exact Hv|]. eapply IH. reflexivity.
  - destruct (Req_dec_T v 0); discriminate.
Qed.

(** ** generate_figures.py *)

(** *** The least-squares line *)

Lemma fsum_map_quadratic (l : list (R * R)) (a b c d e : R) :
  fsum (map (fun p => a * (fst p * snd p) + b * (fst p * fst p)
                      + c * fst p + d * snd p + e) l) =
  a * fsum (map (fun p => fst p * snd p) l)
  + b * fsum (map (fun p => fst p * fst p) l)
  + c * fsum (map fst l) + d * fsum (map snd l) + INR (length l) * e.
Proof.
  induction l as [|p l IH].
  - cbn [map length]. rewrite !fsum_nil. simpl. lra.
  - cbn [map]. rewrite !fsum_cons, IH.
    change (length (p :: l)) with (S (length l)). rewrite S_INR. lra.
Qed.

Lemma map_fst_combine (A B : Type) (xs : list A) (ys : list B) :
  length xs = length ys -> map fst (combine xs ys) = xs.
Proof.
  revert ys. induction xs as [|x xs IH]; intros [|y ys] Hlen;
    try discriminate; cbn [combine map fst]; [reflexivity|].
  f_equal. apply IH. simpl in Hlen. congruence.
Qed.

Lemma map_snd_combine (A B : Type) (xs : list A) (ys : list B) :
  length xs = length ys -> map snd (combine xs ys) = ys.
Proof.
  revert ys. induction xs as [|x xs IH]; intros [|y ys] Hlen;
    try discriminate; cbn [combine map snd]; [reflexivity|].
  f_equal. apply IH. simpl in Hlen. congruence.
Qed.

(** The four sums of [polyfit1] as sums over the paired list. *)
Lemma polyfit1_sums (xs ys : list R) :
  length xs = length ys ->
  polyfit1 xs ys =
  let l := combine xs ys in
  let n := INR (length l) in
  let sx := fsum (map fst l) in
  let sy := fsum (map snd l) in
  let sxx := fsum (map (fun p => fst p * fst p) l) in
  let sxy := fsum (map (fun p => fst p * snd p) l) in
  ((n * sxy - sx * sy) / (n * sxx - sx * sx),
   (sy - (n * sxy - sx * sy) / (n * sxx - sx * sx) * sx) / n).
Proof.
  intros Hlen. unfold polyfit1. cbv zeta. rewrite of_nat_R. real_ops.
  rewrite (map_fst_combine xs ys Hlen), (map_snd_combine xs ys Hlen).
  rewrite length_combine, <- Hlen, Nat.min_id.
  replace (map (fun p : R * R => fst p * fst p) (combine xs ys))
    with (map sq xs).
  - reflexivity.
  - rewrite <- (map_fst_combine xs ys Hlen) at 1. rewrite map_map.
    reflexivity.
Qed.

Lemma polyfit1_affine (xs : list R) (a b : R) :
  INR (length xs) * fsum (map sq xs) - fsum xs * fsum xs <> 0 ->
  polyfit1 xs (map (fun x => a * x + b) xs) = (a, b).
Proof.
  intros Hspread.
  assert (Hn : INR (length xs) <> 0).
  { intros Hz. apply Hspread. destruct xs as [|x xs].
    - cbn [map]. rewrite !fsum_nil. simpl. lra.
    - exfalso. revert Hz. apply not_0_INR. discriminate. }
  unfold polyfit1. cbv zeta. rewrite of_nat_R. real_ops.
  set (n := INR (length xs)) in *.
  set (sx := fsum xs) in *. set (sxx := fsum (map sq xs)) in *.
  assert (Hsy : fsum (map (fun x => a * x + b) xs) = a * sx + n * b).
  { subst sx n. clear. induction xs as [|x xs IH].
    - cbn [map length]. rewrite !fsum_nil. simpl. lra.
    - cbn [map]. rewrite !fsum_cons, IH.
      change (length (x :: xs)) with (S (length xs)). rewrite S_INR. lra. }
  assert (Hsxy : fsum (map (fun p : R * R => fst p * snd p)
                           (combine xs (map (fun x => a * x + b) xs)))
                 = a * sxx + b * sx).
  { subst sx sxx. clear. induction xs as [|x xs IH].
    - cbn [map combine]. rewrite !fsum_nil. lra.
    - cbn [map combine fst snd]. rewrite !fsum_cons, IH.
      unfold sq at 2. real_ops. lra. }
  rewrite Hsy, Hsxy. f_equal; field; auto.
Qed.

(** X12.  On points that lie on a line [y = a x + b] the fit returns
    exactly [(a, b)], for every list of abscissas whose spread
    [n * sum(x^2) - sum(x)^2] is not zero. *)
Theorem polyfit1_recovers_line
        (xs : list R) (a b : R)
        (Hspread : INR (length xs) * fsum (map sq xs) - fsum xs * fsum xs <> 0) :
  polyfit1 xs (map (fun x => a * x + b) xs) = (a, b).
Proof. apply polyfit1_affine, Hspread. Qed.

Lemma spread_of_two : INR (length [0; 1]) * fsum (map sq [0; 1])
                      - fsum [0; 1] * fsum [0; 1] <> 0.
Proof.
  cbn [map length]. rewrite !fsum_cons, !fsum_nil. unfold sq. real_ops.
  simpl INR. lra.
Qed.

Lemma polyfit1_recovers_line_witness :
  polyfit1 [0; 1] (map (fun x => 3 * x + 2) [0; 1]) = (3, 2).
Proof. exact (@polyfit1_recovers_line [0; 1] 3 2 spread_of_two). Defined.

(** X13.  The fitted line satisfies the normal equations of least
    squares: for equally long lists with non-zero spread, the residuals
    [y - (slope * x + intercept)] sum to zero and are orthogonal to the
    abscissas. *)
Theorem polyfit1_normal_equations
        (xs ys : list R)
        (Hlen : length xs = length ys)
        (Hspread : INR (length xs) * fsum (map sq xs) - fsum xs * fsum xs <> 0) :
  fsum (map (fun p => snd p - (fst (polyfit1 xs ys) * fst p
                               + snd (polyfit1 xs ys)))
            (combine xs ys)) = 0 /\
  fsum (map (fun p => fst p * (snd p - (fst (polyfit1 xs ys) * fst p
                                        + snd (polyfit1 xs ys))))
            (combine xs ys)) = 0.
Proof.
  assert (Hn : INR (length xs) <> 0).
  { intros Hz. apply Hspread. destruct xs as [|x xs].
    - cbn [map]. rewrite !fsum_nil. simpl. lra.
    - exfalso. revert Hz. apply not_0_INR. discriminate. }
  assert (Hsq : fsum (map sq xs)
                = fsum (map (fun p : R * R => fst p * fst p) (combine xs ys))).
  { rewrite <- (map_fst_combine xs ys Hlen) at 1. rewrite map_map.
    reflexivity. }
  assert (Hsx : fsum xs = fsum (map fst (combine xs ys)))
    by (rewrite map_fst_combine by exact Hlen; reflexivity).
  assert (Hl : length xs = length (combine xs ys))
    by (rewrite length_combine, <- Hlen, Nat.min_id; reflexivity).
  rewrite Hsq, Hsx, Hl in Hspread. rewrite Hl in Hn.
  rewrite (polyfit1_sums xs ys Hlen). cbv zeta. cbn [fst snd].
  set (l := combine xs ys) in *.
  set (n := INR (length l)) in *.
  set (sx := fsum (map fst l)) in *.
  set (sy := fsum (map snd l)).
  set (sxx := fsum (map (fun p : R * R => fst p * fst p) l)) in *.
  set (sxy := fsum (map (fun p : R * R => fst p * snd p) l)).
  set (s := (n * sxy - sx * sy) / (n * sxx - sx * sx)).
  set (c := (sy - s * sx) / n).
  split.
  - rewrite (map_ext _ (fun p => 0 * (fst p * snd p) + 0 * (fst p * fst p)
                                 + (- s) * fst p + 1 * snd p + (- c)))
      by (intros p; lra).
    rewrite fsum_map_quadratic. fold n sx sy sxx sxy.
    subst c. field. exact Hn.
  - rewrite (map_ext _ (fun p => 1 * (fst p * snd p) + (- s) * (fst p * fst p)
                                 + (- c) * fst p + 0 * snd p + 0))
      by (intros p; lra).
    rewrite fsum_map_quadratic. fold n sx sy sxx sxy.
    subst c s. field. split; assumption.
Qed.

Lemma polyfit1_normal_equations_witness :
  fsum (map (fun p => snd p - (fst (polyfit1 [0; 1] [5; 7]) * fst p
                               + snd (polyfit1 [0; 1] [5; 7])))
            (combine [0; 1] [5; 7])) = 0.
Proof.
  exact (proj1 (@polyfit1_normal_equations [0; 1] [5; 7] eq_refl spread_of_two)).
Defined.

(** *** The fitted decay curve *)

Lemma ln_exponential (c r : R) (d : nat) :
  0 < c -> 0 < r -> ln (c * r ^ d) = ln r * INR d + ln c.
Proof.
  intros Hc Hr. rewrite ln_mult by (try apply pow_lt; assumption).
  rewrite ln_pow by exact Hr. lra.
Qed.

(** X14.  On variances that follow [c * r ** depth] exactly, with
    [c, r > 0] and depths of non-zero spread, the fit returns the slope
    [ln r] and the intercept [ln c], the rate in the legend is
    [|ln r|], and the fitted curve of line 307 passes through every data
    point. *)
Theorem depth_fit_recovers_decay
        (depths : list nat) (c r : R)
        (Hc : 0 < c) (Hr : 0 < r)
        (Hspread : INR (length (map INR depths))
                   * fsum (map sq (map INR depths))
                   - fsum (map INR depths) * fsum (map INR depths) <> 0) :
  depth_fit (map INR depths) (exponential_variances c r depths) =
  Some (ln r, ln c) /\
  decay_rate (ln r, ln c) = Rabs (ln r) /\
  map (fit_line (ln r, ln c)) (map INR depths) =
  exponential_variances c r depths.
Proof.
  assert (Hpos : Forall (fun v => 0 < v) (exponential_variances c r depths)).
  { unfold exponential_variances. rewrite Forall_map, Forall_forall.
    intros d _. apply Rmult_lt_0_compat; [exact Hc|apply pow_lt, Hr]. }
  split; [|split].
  - unfold depth_fit. rewrite (all_finite_log_var Hpos). f_equal.
    unfold exponential_variances. rewrite map_map.
    rewrite (map_ext (fun d => ln (c * r ^ d))
                     (fun d => (fun x => ln r * x + ln c) (INR d)))
      by (intros d; apply ln_exponential; assumption).
    rewrite <- (map_map INR (fun x => ln r * x + ln c)).
    apply polyfit1_affine, Hspread.
  - reflexivity.
  - unfold exponential_variances. rewrite map_map. apply map_ext.
    intros d. unfold fit_line. cbn [fst snd].
    rewrite exp_ln by exact Hc. f_equal.
    replace (ln r * INR d) with (INR d * ln r) by lra.
    rewrite <- ln_pow by exact Hr. apply exp_ln, pow_lt, Hr.
Qed.

Lemma spread_of_layers :
  INR (length (map INR layer_depths)) * fsum (map sq (map INR layer_depths))
  - fsum (map INR layer_depths) * fsum (map INR layer_depths) <> 0.
Proof.
  unfold layer_depths. cbn [map length].
  rewrite !fsum_cons, !fsum_nil. unfold sq. real_ops.
  rewrite !INR_IZR_INZ. cbn [Z.of_nat Pos.of_succ_nat Pos.succ]. lra.
Qed.

Lemma depth_fit_recovers_decay_witness :
  depth_fit (map INR layer_depths)
            (exponential_variances (1 / 4) (9 / 10) layer_depths) =
  Some (ln (9 / 10), ln (1 / 4)).
Proof.
  refine (proj1 (@depth_fit_recovers_decay layer_depths (1 / 4) (9 / 10)
                   _ _ spread_of_layers)); lra.
Defined.

(** *** The error bars *)

(** X15.  For [0 < q < 1] and a positive number of shots the binomial
    error is [C_qc / sqrt(n)] and the propagated error of line 93 does
    not depend on [C_qc]: it is [|1 - 2q| / (2 sqrt(n))], below
    [1 / (2 sqrt(n))], and zero at [q = 0.5]. *)
Theorem cqc_err_closed_form
        (n_shots : nat) (q : R) (Hn : (0 < n_shots)%nat) (Hq : 0 < q < 1) :
  q_err n_shots q = c_qc q / sqrt (INR n_shots) /\
  cqc_err n_shots q = Rabs (1 - 2 * q) / (2 * sqrt (INR n_shots)) /\
  cqc_err n_shots q < 1 / (2 * sqrt (INR n_shots)) /\
  cqc_err n_shots (1 / 2) = 0.
Proof.
  assert (Hn' : 0 < INR n_shots) by (apply lt_0_INR, Hn).
  assert (Hs : 0 < sqrt (INR n_shots)) by (apply sqrt_lt_R0, Hn').
  assert (Hqe : forall x, q_err n_shots x = c_qc x / sqrt (INR n_shots)).
  { intros x. unfold q_err. rewrite of_nat_R, c_qc_R. real_ops.
    apply sqrt_div_alt, Hn'. }
  assert (Hc : 0 < c_qc q) by (apply c_qc_pos_iff; nra).
  assert (Herr : cqc_err n_shots q
                 = Rabs (1 - 2 * q) / (2 * sqrt (INR n_shots))).
  { unfold cqc_err. real_ops. rewrite Hqe, dCdq_R.
    destruct (Rlt_dec 0 (c_qc q)) as [_|Hn0]; [|contradiction].
    field. split; lra. }
  split; [apply Hqe|]. split; [exact Herr|]. split.
  - rewrite Herr.
    assert (Habs : Rabs (1 - 2 * q) < 1) by (apply Rabs_def1; lra).
    assert (Hk : 0 < / (2 * sqrt (INR n_shots)))
      by (apply Rinv_0_lt_compat; lra).
    unfold Rdiv. apply Rmult_lt_compat_r; assumption.
  - unfold cqc_err. real_ops. rewrite dCdq_R.
    replace (1 - 2 * (1 / 2)) with 0 by lra. rewrite Rabs_R0.
    destruct (Rlt_dec 0 (c_qc (1 / 2))); unfold Rdiv; lra.
Qed.

Lemma cqc_err_closed_form_witness :
  cqc_err 52 (1 / 4) = Rabs (1 - 2 * (1 / 4)) / (2 * sqrt (INR 52)).
Proof.
  refine (proj1 (proj2 (@cqc_err_closed_form 52 (1 / 4) _ _))); [lia|lra].
Defined.

(** *** The plotted trajectories *)

Lemma ascent_step_R (q : R) :
  0 <= q <= 1 -> ascent_step q = 1 / 2 + 7 / 10 * (q - 1 / 2).
Proof.
  intros Hq. unfold ascent_step, py_max2, py_min2. cbv zeta. real_ops.
  rewrite (@Rltb_lt (q + 15 * / 100 * (1 - 2 * / 1 * q)) (99 * / 100)) by lra.
  rewrite Rltb_lt by lra. lra.
Qed.

Lemma ascent_from_nth (iters : nat) :
  forall (q : R) (k : nat),
    0 <= q <= 1 -> (k < iters)%nat ->
    nth k (ascent_from q iters) 0 = 1 / 2 + (7 / 10) ^ S k * (q - 1 / 2).
Proof.
  induction iters as [|iters IH]; intros q k Hq Hk; [lia|].
  cbn [ascent_from]. cbv zeta. rewrite ascent_step_R by exact Hq.
  destruct k as [|k]; cbn [nth].
  - simpl. lra.
  - rewrite IH by (try lia; lra).
    change ((7 / 10) ^ S (S k)) with (7 / 10 * (7 / 10) ^ S k). lra.
Qed.

Lemma cqc_traj_sorted (iters : nat) :
  forall q : R,
    0 <= q <= 1 ->
    Sorted Rle (map (fun x => sqrt (x * (1 - x))) (q :: ascent_from q iters)).
Proof.
  induction iters as [|iters IH]; intros q Hq.
  - cbn [ascent_from map]. repeat constructor.
  - cbn [ascent_from]. cbv zeta. rewrite ascent_step_R by exact Hq.
    set (q' := 1 / 2 + 7 / 10 * (q - 1 / 2)).
    assert (Hq' : 0 <= q' <= 1) by (subst q'; lra).
    specialize (IH q' Hq'). cbn [map] in *.
    constructor; [exact IH|]. constructor.
    apply sqrt_le_1_alt. subst q'.
    pose proof (Rle_0_sqr (q - 1 / 2)) as Hs. unfold Rsqr in Hs. nra.
Qed.

(** X16.  For a start in [[0, 1]] the plotted trajectory has
    [iters + 1] points, its [k]-th point is
    [0.5 + 0.7^k (q_init - 0.5)] (the clamp to [[0.01, 0.99]] never
    acts), and the plotted correlation never decreases along it. *)
Theorem trajectory_closed_form
        (q_init : R) (iters : nat) (Hq : 0 <= q_init <= 1) :
  length (trajectory q_init iters) = S iters /\
  (forall k : nat,
      (k <= iters)%nat ->
      nth k (trajectory q_init iters) 0 =
      1 / 2 + (7 / 10) ^ k * (q_init - 1 / 2)) /\
  Sorted Rle (cqc_traj q_init iters).
Proof.
  split; [|split].
  - unfold trajectory. cbn [length]. f_equal.
    clear Hq. revert q_init. induction iters as [|iters IH]; intros q.
    + reflexivity.
    + cbn [ascent_from length]. cbv zeta. rewrite IH. reflexivity.
  - intros k Hk. unfold trajectory. destruct k as [|k]; cbn [nth].
    + simpl. lra.
    + apply ascent_from_nth; [exact Hq|lia].
  - unfold cqc_traj, trajectory. real_ops. apply cqc_traj_sorted, Hq.
Qed.

Lemma trajectory_closed_form_witness :
  nth 2 (trajectory (1 / 10) 5) 0 = 1 / 2 + (7 / 10) ^ 2 * (1 / 10 - 1 / 2).
Proof.
  refine (proj1 (proj2 (@trajectory_closed_form (1 / 10) 5 _)) 2%nat _);
    [lra|lia].
Defined.

(** ** azure_quantum_tests.py *)

Section RunnerOutcomes.
Context {F : Type} `{PyFloat F}.
Variable round4 : F -> F.
Variable np_corrcoef : list F -> list F -> F.

Lemma same_header_refl (res : results F) : same_header res res.
Proof. repeat split. Qed.

Lemma same_header_trans (a b c : results F) :
  same_header a b -> same_header b c -> same_header a c.
Proof.
  unfold same_header. intros (H1 & H2 & H3 & H4 & H5 & H6)
                             (K1 & K2 & K3 & K4 & K5 & K6).
  repeat split; congruence.
Qed.

(** What the loop leaves behind: the header, the summary, the error and
    the verdict are untouched, measurements are appended in order, one
    per q value when it ends normally and fewer when it raises. *)
Lemma measure_loop_frame (w : world F) (info : test_info F) (target : string)
      (shots : Z) (q_values : list F) :
  forall (i : nat) (res res' : results F) (ex : option exn),
    measure_loop round4 w info target shots i q_values res = (res', ex) ->
    same_header res res' /\
    r_summary res' = r_summary res /\
    r_error res' = r_error res /\
    r_passed res' = r_passed res /\
    exists ms : list (measurement F),
      r_measurements res' = r_measurements res ++ ms /\
      map (@m_q_theory F) ms = firstn (length ms) q_values /\
      Forall (fun m => (m_ones_count m + m_zeros_count m = shots)%Z) ms /\
      match ex with
      | None => length ms = length q_values
      | Some _ => (length ms < length q_values)%nat
      end.
Proof.
  induction q_values as [|q rest IH]; intros i res res' ex Hloop.
  - cbn [measure_loop] in Hloop. injection Hloop as <- <-.
    split; [apply same_header_refl|]. repeat (split; [reflexivity|]).
    exists []. rewrite app_nil_r. repeat split. constructor.
  - cbn [measure_loop] in Hloop.
    destruct (measure_one round4 w info target shots i q) as [m|e] eqn:Hone.
    + apply IH in Hloop.
      destruct Hloop as (Hh & Hs & He & Hp & ms & Hm & Hq & Hsum & Hlen).
      cbn [append_measurement r_summary r_error r_passed r_measurements] in *.
      split.
      { eapply same_header_trans; [|exact Hh]. repeat split. }
      repeat (split; [assumption|]).
      assert (Hmq : m_q_theory m = q /\
                    (m_ones_count m + m_zeros_count m = shots)%Z).
      { unfold measure_one in Hone.
        destruct (azure_submit w i (ti_entry_point info) q target shots)
          as [job|]; [|discriminate].
        cbn [bind] in Hone.
        destruct (wait_for_completion w i job); [|discriminate].
        cbn [bind] in Hone.
        destruct (get_results w i job) as [result|]; [|discriminate].
        cbn [bind] in Hone.
        destruct (py_int_div (count_ones result) shots); [|discriminate].
        cbn [bind] in Hone. injection Hone as <-.
        cbn [m_q_theory m_ones_count m_zeros_count]. split; [reflexivity|lia]. }
      destruct Hmq as [Hmq Hmsum].
      exists (m :: ms). rewrite Hm, <- app_assoc. split; [reflexivity|].
      split; [cbn [map length firstn]; congruence|].
      split; [constructor; assumption|].
      destruct ex; cbn [length]; lia.
    + injection Hloop as <- <-.
      split; [apply same_header_refl|]. repeat (split; [reflexivity|]).
      exists []. rewrite app_nil_r. repeat split; [constructor|].
      cbn [length]. lia.
Qed.

Lemma summarize_frame (res res' : results F) :
  summarize round4 np_corrcoef res = Return res' ->
  same_header res res' /\
  r_measurements res' = r_measurements res /\
  r_error res' = r_error res /\
  (r_measurements res <> [] ->
   r_passed res' =
   Some (ltb (lit 0.9)
             (if (1 <? length (r_measurements res))%nat
              then np_corrcoef (map (@m_q_theory F) (r_measurements res))
                               (map (@m_q_measured F) (r_measurements res))
              else lit 1)) /\
   exists s : summary F,
     r_summary res' = Some s /\
     s_total_measurements s = length (r_measurements res) /\
     s_total_shots s = (Z.of_nat (length (r_measurements res)) * r_shots res)%Z).
Proof.
  unfold summarize. destruct (r_measurements res) as [|m ms] eqn:Hms.
  - intros Hret. injection Hret as <-.
    split; [apply same_header_refl|].
    split; [exact Hms|]. split; [reflexivity|].
    intros Hne. congruence.
  - cbn [map combine py_max bind]. intros Hret. injection Hret as <-.
    cbn [set_passed set_summary r_measurements r_error r_passed r_summary].
    split; [repeat split|]. split; [exact Hms|]. split; [reflexivity|].
    intros _. split.
    + cbn [length]. rewrite length_map. reflexivity.
    + eexists. split; [reflexivity|]. split; reflexivity.
Qed.

(** The body of the [try], by the way it ends. *)
Lemma try_body_frame (w : world F) (info : test_info F) (target : string)
      (shots : Z) (q_values : list F) (res res' : results F) (ex : option exn) :
  q_values <> [] ->
  r_measurements res = [] -> r_summary res = None -> r_error res = None ->
  r_passed res = None ->
  try_body round4 np_corrcoef w info target shots q_values res = (res', ex) ->
  same_header res res' /\
  r_error res' = None /\
  Forall (fun m => (m_ones_count m + m_zeros_count m = shots)%Z)
         (r_measurements res') /\
  match ex with
  | None =>
      map (@m_q_theory F) (r_measurements res') = q_values /\
      r_passed res' =
      Some (ltb (lit 0.9)
                (if (1 <? length q_values)%nat
                 then np_corrcoef (map (@m_q_theory F) (r_measurements res'))
                                  (map (@m_q_measured F) (r_measurements res'))
                 else lit 1)) /\
      exists s : summary F,
        r_summary res' = Some s /\
        s_total_measurements s = length q_values /\
        s_total_shots s = (Z.of_nat (length q_values) * r_shots res)%Z
  | Some _ =>
      (length (r_measurements res') < length q_values)%nat /\
      r_summary res' = None /\ r_passed res' = None
  end.
Proof.
  intros Hne Hm0 Hs0 He0 Hp0. unfold try_body.
  assert (Hfail : forall e, (res, Some e) = (res', ex) ->
            same_header res res' /\ r_error res' = None /\
            Forall (fun m => (m_ones_count m + m_zeros_count m = shots)%Z)
                   (r_measurements res') /\
            match ex with
            | None => False
            | Some _ =>
                (length (r_measurements res') < length q_values)%nat /\
                r_summary res' = None /\ r_passed res' = None
            end).
  { intros e Heq. injection Heq as <- <-.
    split; [apply same_header_refl|]. split; [exact He0|].
    rewrite Hm0. split; [constructor|].
    split; [|split; assumption].
    destruct q_values; [congruence|]. cbn [length]. lia. }
  destruct (read_file w (ti_file info)) as [code|e1].
  2: { intros Heq. destruct (Hfail e1 Heq) as (A & B & C & D).
       destruct ex; [|contradiction]. exact (conj A (conj B (conj C D))). }
  destruct (qsharp_eval w code) as [[]|e2].
  2: { intros Heq. destruct (Hfail e2 Heq) as (A & B & C & D).
       destruct ex; [|contradiction]. exact (conj A (conj B (conj C D))). }
  destruct (measure_loop round4 w info target shots 0 q_values res)
    as [res1 ex1] eqn:Hloop.
  apply measure_loop_frame in Hloop.
  destruct Hloop as (Hh & Hs & He & Hp & ms & Hm & Hq & Hsum & Hlen).
  rewrite Hm0 in Hm. cbn [app] in Hm.
  destruct ex1 as [e3|].
  - intros Heq. injection Heq as <- <-.
    split; [exact Hh|]. split; [congruence|].
    rewrite Hm. split; [exact Hsum|].
    split; [exact Hlen|]. split; congruence.
  - destruct (summarize_returns round4 np_corrcoef res1) as [res2 Hsum2].
    rewrite Hsum2. intros Heq. injection Heq as <- <-.
    apply summarize_frame in Hsum2.
    destruct Hsum2 as (Hh2 & Hm2 & He2 & Hfull).
    assert (Hne1 : r_measurements res1 <> []).
    { rewrite Hm. intros Hnil. rewrite Hnil in Hlen. cbn [length] in Hlen.
      destruct q_values; [congruence|discriminate]. }
    destruct (Hfull Hne1) as (Hpass & s & Hsome & Htm & Hts).
    split; [eapply same_header_trans; eassumption|].
    split; [congruence|]. rewrite Hm2, Hm.
    split; [exact Hsum|].
    rewrite Hlen, firstn_all in Hq.
    split; [exact Hq|].
    rewrite Hm, Hlen in Hpass, Htm, Hts.
    split; [exact Hpass|].
    exists s. split; [exact Hsome|]. split; [exact Htm|].
    rewrite Hts. destruct Hh as (_ & _ & _ & _ & Hshots & _).
    rewrite Hshots. reflexivity.
Qed.

End RunnerOutcomes.

Section RunnerTheorems.
Context {F : Type} `{PyFloat F}.
Variable round4 : F -> F.
Variable np_corrcoef : list F -> list F -> F.

Lemma initial_results_fresh (w : world F) (test_num : Z) (info : test_info F)
      (target : string) (shots : Z) :
  r_measurements (initial_results w test_num info target shots) = [] /\
  r_summary (initial_results w test_num info target shots) = None /\
  r_error (initial_results w test_num info target shots) = None /\
  r_passed (initial_results w test_num info target shots) = None.
Proof. repeat split. Qed.

(** X17.  For a test of [TESTS] whose file exists, with the SDK loaded
    and a non-empty list of q values, the runner ends in one of three
    ways.  It returns a complete dictionary: no error, one measurement
    per q value in order, a summary whose totals are the number of q
    values and that number times [shots], and the verdict
    [correlation > 0.9].  Or it returns a failed one: an error message,
    the verdict [False], no summary, and fewer measurements than q
    values.  Or it raises an exception that is not a subclass of
    [Exception].  In both dictionaries the header is the caller's and
    the counts of every measurement add up to [shots]. *)
Theorem run_qsharp_test_outcomes
        (w : world F) (test_num : Z) (target : string) (shots : Z)
        (q_values : option (list F)) (info : test_info F)
        (Hnum : TESTS test_num = Some info)
        (Hfile : file_exists w (ti_file info) = true)
        (Hsdk : QSHARP_AVAILABLE w = true)
        (Hqs : effective_q_values info q_values <> []) :
  match run_qsharp_test round4 np_corrcoef w test_num target shots q_values with
  | Return out =>
      r_test_number out = test_num /\ r_test_name out = ti_name info /\
      r_target out = target /\ r_shots out = shots /\
      Forall (fun m => (m_ones_count m + m_zeros_count m = shots)%Z)
             (r_measurements out) /\
      ((r_error out = None /\
        map (@m_q_theory F) (r_measurements out) =
        effective_q_values info q_values /\
        r_passed out =
        Some (ltb (lit 0.9)
                  (if (1 <? length (effective_q_values info q_values))%nat
                   then np_corrcoef
                          (map (@m_q_theory F) (r_measurements out))
                          (map (@m_q_measured F) (r_measurements out))
                   else lit 1)) /\
        exists s : summary F,
          r_summary out = Some s /\
          s_total_measurements s = length (effective_q_values info q_values) /\
          s_total_shots s =
          (Z.of_nat (length (effective_q_values info q_values)) * shots)%Z)
       \/
       (exists msg : string,
           r_error out = Some msg /\ r_passed out = Some false /\
           r_summary out = None /\
           (length (r_measurements out)
            < length (effective_q_values info q_values))%nat))
  | Raise e => is_Exception (exn_kind e) = false
  end.
Proof.
  unfold run_qsharp_test. rewrite Hnum, Hfile. cbn [negb].
  set (qs := effective_q_values info q_values) in *.
  destruct qs as [|q0 qrest] eqn:Hqeq; [congruence|].
  cbn [py_min py_max bind]. rewrite Hsdk. cbn [negb].
  destruct (initial_results_fresh w test_num info target shots)
    as (Hm0 & Hs0 & He0 & Hp0).
  destruct (try_body round4 np_corrcoef w info target shots (q0 :: qrest)
                     (initial_results w test_num info target shots))
    as [res ex] eqn:Hbody.
  apply try_body_frame in Hbody; try assumption; try discriminate.
  destruct Hbody as (Hh & He & Hsum & Hcase).
  destruct Hh as (H1 & H2 & _ & H4 & H5 & _).
  cbn [initial_results r_test_number r_test_name r_target r_shots] in *.
  destruct ex as [e|].
  - unfold except_Exception.
    destruct (is_Exception (exn_kind e)) eqn:Hexc; [|exact Hexc].
    cbn [set_passed set_error r_test_number r_test_name r_target r_shots
         r_measurements r_error r_passed r_summary].
    destruct Hcase as (Hlen & Hnos & _).
    do 4 (split; [congruence|]). split; [exact Hsum|].
    right. exists (exn_msg e). repeat split; assumption.
  - destruct Hcase as (Hq & Hpass & s & Hsome & Htm & Hts).
    do 4 (split; [congruence|]). split; [exact Hsum|].
    left. split; [exact He|]. split; [exact Hq|]. split; [exact Hpass|].
    exists s. repeat split; assumption.
Qed.

Lemma measure_loop_complete (w : world F) (info : test_info F)
      (target : string) (shots : Z) (result_of : nat -> list Z)
      (q_values : list F) :
  all_jobs_complete w info result_of -> shots <> 0%Z ->
  forall (i : nat) (res : results F),
    snd (measure_loop round4 w info target shots i q_values res) = None.
Proof.
  intros [_ Hjobs] Hshots.
  induction q_values as [|q rest IH]; intros i res; cbn [measure_loop].
  - reflexivity.
  - unfold measure_one.
    destruct (Hjobs i (ti_entry_point info) q target shots)
      as (job & Hsub & Hwait & Hget).
    rewrite Hsub. cbn [bind]. rewrite Hwait. cbn [bind].
    rewrite Hget. cbn [bind]. unfold py_int_div.
    destruct (Z.eqb_spec shots 0) as [Hz|_]; [contradiction|].
    cbn [bind]. apply IH.
Qed.

(** X18.  When the file is read and compiled, every job of the loop
    completes and [shots] is not zero, the runner returns a dictionary
    without error, with one measurement per q value and a verdict.  With
    a single q value the correlation is set to 1.0 (lines 230-233), so
    the verdict is [True] whatever was measured. *)
Theorem completed_jobs_give_complete_results
        (w : world F) (test_num : Z) (target : string) (shots : Z)
        (q_values : option (list F)) (info : test_info F)
        (result_of : nat -> list Z)
        (Hnum : TESTS test_num = Some info)
        (Hfile : file_exists w (ti_file info) = true)
        (Hsdk : QSHARP_AVAILABLE w = true)
        (Hqs : effective_q_values info q_values <> [])
        (Hjobs : all_jobs_complete w info result_of)
        (Hshots : shots <> 0%Z) :
  exists out : results F,
    run_qsharp_test round4 np_corrcoef w test_num target shots q_values =
    Return out /\
    r_error out = None /\
    map (@m_q_theory F) (r_measurements out) =
    effective_q_values info q_values /\
    (exists verdict : bool, r_passed out = Some verdict) /\
    (length (effective_q_values info q_values) = 1%nat ->
     ltb (lit 0.9) (lit 1) = true -> r_passed out = Some true).
Proof.
  unfold run_qsharp_test. rewrite Hnum, Hfile. cbn [negb].
  set (qs := effective_q_values info q_values) in *.
  destruct qs as [|q0 qrest] eqn:Hqeq; [congruence|].
  cbn [py_min py_max bind]. rewrite Hsdk. cbn [negb].
  destruct (initial_results_fresh w test_num info target shots)
    as (Hm0 & Hs0 & He0 & Hp0).
  destruct (try_body round4 np_corrcoef w info target shots (q0 :: qrest)
                     (initial_results w test_num info target shots))
    as [res ex] eqn:Hbody.
  assert (Hex : ex = None).
  { unfold try_body in Hbody. destruct Hjobs as [(code & Hread & Heval) Hj].
    rewrite Hread, Heval in Hbody.
    pose proof (@measure_loop_complete w info target shots result_of
                  (q0 :: qrest) (conj (ex_intro _ code (conj Hread Heval)) Hj)
                  Hshots 0%nat
                  (initial_results w test_num info target shots)) as Hnone.
    destruct (measure_loop round4 w info target shots 0 (q0 :: qrest)
                (initial_results w test_num info target shots))
      as [res1 ex1].
    cbn [snd] in Hnone. subst ex1.
    destruct (summarize_returns round4 np_corrcoef res1) as [res2 Hsum2].
    rewrite Hsum2 in Hbody. injection Hbody as _ <-. reflexivity. }
  subst ex.
  apply try_body_frame in Hbody; try assumption; try discriminate.
  destruct Hbody as (_ & He & _ & Hq & Hpass & _).
  exists res. split; [reflexivity|]. split; [exact He|].
  split; [exact Hq|]. split; [eexists; exact Hpass|].
  intros Hone Hcmp. rewrite Hpass, Hone. cbn [Nat.ltb Nat.leb].
  rewrite Hcmp. reflexivity.
Qed.

(** X19.  With [shots = 0], when the file is read and compiled and the
    first job completes, the division [ones_count / shots] raises in the
    first iteration: the runner returns the error
    ["division by zero"], the verdict [False] and no measurement. *)
Theorem zero_shots_reported_as_error
        (w : world F) (test_num : Z) (target : string)
        (q_values : option (list F)) (info : test_info F)
        (result_of : nat -> list Z)
        (Hnum : TESTS test_num = Some info)
        (Hfile : file_exists w (ti_file info) = true)
        (Hsdk : QSHARP_AVAILABLE w = true)
        (Hqs : effective_q_values info q_values <> [])
        (Hjobs : all_jobs_complete w info result_of) :
  exists out : results F,
    run_qsharp_test round4 np_corrcoef w test_num target 0 q_values =
    Return out /\
    r_error out = Some "division by zero"%string /\
    r_passed out = Some false /\
    r_measurements out = [].
Proof.
  unfold run_qsharp_test. rewrite Hnum, Hfile. cbn [negb].
  destruct (effective_q_values info q_values) as [|q0 qrest]; [congruence|].
  cbn [py_min py_max bind]. rewrite Hsdk. cbn [negb].
  unfold try_body. destruct Hjobs as [(code & Hread & Heval) Hj].
  rewrite Hread, Heval. cbn [measure_loop]. unfold measure_one.
  destruct (Hj 0%nat (ti_entry_point info) q0 target 0%Z)
    as (job & Hsub & Hwait & Hget).
  rewrite Hsub. cbn [bind]. rewrite Hwait. cbn [bind].
  rewrite Hget. cbn [bind]. unfold py_int_div. cbn [Z.eqb bind].
  unfold except_Exception. cbn [exn_kind is_Exception exn_msg].
  eexists. split; [reflexivity|]. repeat split.
Qed.


End RunnerTheorems.

Lemma completing_world_completes (info : test_info float) :
  all_jobs_complete completing_world info (fun _ => [1; 0; 1; 1]%Z).
Proof.
  split.
  - eexists. split; reflexivity.
  - intros i entry q target shots. eexists. repeat split.
Qed.

Lemma default_q_values_nonempty (info : test_info float) :
  TESTS 2 = Some info -> effective_q_values info None <> [].
Proof. intros Hinfo. injection Hinfo as <-. discriminate. Qed.

Lemma run_qsharp_test_outcomes_witness :
  match run_qsharp_test round4_id corrcoef_one completing_world 2
                        "ionq.simulator" 4 None with
  | Return out => r_test_number out = 2%Z /\ r_shots out = 4%Z
  | Raise e => is_Exception (exn_kind e) = false
  end.
Proof.
  pose proof (@run_qsharp_test_outcomes
                float _ round4_id corrcoef_one completing_world 2
                "ionq.simulator" 4 None _ eq_refl eq_refl eq_refl
                (default_q_values_nonempty eq_refl)) as Hout.
  destruct (run_qsharp_test round4_id corrcoef_one completing_world 2
                            "ionq.simulator" 4 None) as [out|e].
  - destruct Hout as (Hn & _ & _ & Hs & _). split; assumption.
  - exact Hout.
Defined.

Lemma completed_jobs_give_complete_results_witness :
  exists out : results float,
    run_qsharp_test round4_id corrcoef_one completing_world 2
                    "ionq.simulator" 4 None = Return out /\
    r_error out = None.
Proof.
  destruct (@completed_jobs_give_complete_results
              float _ round4_id corrcoef_one completing_world 2
              "ionq.simulator" 4 None _ (fun _ => [1; 0; 1; 1]%Z)
              eq_refl eq_refl eq_refl (default_q_values_nonempty eq_refl)
              (completing_world_completes _) ltac:(discriminate))
    as (out & Hrun & Herr & _).
  exists out. split; assumption.
Defined.

Lemma zero_shots_reported_as_error_witness :
  exists out : results float,
    run_qsharp_test round4_id corrcoef_one completing_world 2
                    "ionq.simulator" 0 None = Return out /\
    r_error out = Some "division by zero"%string.
Proof.
  destruct (@zero_shots_reported_as_error
              float _ round4_id corrcoef_one completing_world 2
              "ionq.simulator" None _ (fun _ => [1; 0; 1; 1]%Z)
              eq_refl eq_refl eq_refl (default_q_values_nonempty eq_refl)
              (completing_world_completes _))
    as (out & Hrun & Herr & _).
  exists out. split; assumption.
Defined.

(** *** [main]: the selection of tests and the cost estimate *)

Lemma validate_tests_spec (F : Type) (ops : PyFloat F)
      (test_nums validated : list Z) :
  @validate_tests F _ test_nums = Some validated ->
  validated = test_nums /\
  Forall (fun t => exists info, @TESTS F _ t = Some info) test_nums.
Proof.
  unfold validate_tests.
  destruct (forallb _ test_nums) eqn:Hall; [|discriminate].
  intros Hsome. injection Hsome as <-. split; [reflexivity|].
  rewrite forallb_forall in Hall. apply Forall_forall. intros t Ht.
  specialize (Hall t Ht). destruct (TESTS t) as [info|]; [|discriminate].
  exists info. reflexivity.
Qed.

(** X21.  The numbers that pass the check of lines 382-385 are keys of
    [TESTS]: the job count of line 388 is defined for them, and a call of
    the runner on any of them cannot raise its invalid-number
    [ValueError].  The selection ["all"] is [[1, 2, 3]] and passes the
    check. *)
Theorem validated_tests_are_runnable
        (F : Type) (ops : PyFloat F) (test_nums validated : list Z)
        (Hval : @validate_tests F _ test_nums = Some validated) :
  validated = test_nums /\
  (exists jobs : nat, @total_jobs F _ validated = Some jobs) /\
  (forall (t : Z) (round4 : F -> F) (np_corrcoef : list F -> list F -> F)
          (w : world F) (target : string) (shots : Z)
          (q_values : option (list F)) (e : exn),
      In t validated ->
      run_qsharp_test round4 np_corrcoef w t target shots q_values = Raise e ->
      e <> invalid_test_number t) /\
  (forall as_int : option Z, select_tests "all" as_int = Some [1; 2; 3]%Z) /\
  @validate_tests F _ [1; 2; 3]%Z = Some [1; 2; 3]%Z.
Proof.
  destruct (validate_tests_spec ops test_nums Hval) as [-> Hkeys].
  split; [reflexivity|]. split; [|split; [|split]].
  - clear Hval. induction Hkeys as [|t ts [info Hinfo] _ [jobs IH]].
    + exists 0%nat. reflexivity.
    + cbn [total_jobs]. rewrite Hinfo, IH. eexists. reflexivity.
  - intros t round4 np_corrcoef w target shots q_values e Hin Hrun Heq.
    rewrite Forall_forall in Hkeys. destruct (Hkeys t Hin) as [info Hinfo].
    unfold run_qsharp_test in Hrun. rewrite Hinfo in Hrun.
    destruct (file_exists w (ti_file info)); cbn [negb] in Hrun.
    2: { injection Hrun as <-. discriminate. }
    destruct (effective_q_values info q_values) as [|q0 qrest].
    { cbn [py_min bind] in Hrun. injection Hrun as <-. discriminate. }
    cbn [py_min py_max bind] in Hrun.
    destruct (QSHARP_AVAILABLE w); cbn [negb] in Hrun; [|discriminate].
    destruct (try_body round4 np_corrcoef w info target shots (q0 :: qrest) _)
      as [res [e'|]]; [|discriminate].
    unfold except_Exception in Hrun.
    destruct (is_Exception (exn_kind e')) eqn:Hexc; [discriminate|].
    injection Hrun as ->. rewrite Heq in Hexc. discriminate.
  - intros as_int. reflexivity.
  - reflexivity.
Qed.

Lemma validated_tests_are_runnable_witness :
  exists jobs : nat, @total_jobs float _ [1; 3]%Z = Some jobs.
Proof.
  exact (proj1 (proj2 (@validated_tests_are_runnable
                         float _ [1; 3]%Z [1; 3]%Z eq_refl))).
Defined.

(** X22.  The cost estimate agrees with the table printed in the help
    text (lines 303-307): 15, 9 and 9 jobs for the three tests and 33 for
    all of them, hence 375, 225, 225 and 825 dollars at the Forte-1
    minimum and 187.50, 112.50, 112.50 and 412.50 at the Aria-1 minimum,
    computed in binary64; the Aria-1 figure is always half the Forte-1
    one. *)
Theorem cost_estimate_matches_help_text :
  @total_jobs float _ [1]%Z = Some 15%nat /\
  @total_jobs float _ [2]%Z = Some 9%nat /\
  @total_jobs float _ [3]%Z = Some 9%nat /\
  @total_jobs float _ [1; 2; 3]%Z = Some 33%nat /\
  map (@forte_cost float _) [15; 9; 33]%nat = map lit [375; 225; 825]%Q /\
  map (@aria_cost float _) [15; 9; 33]%nat
  = map lit [187.50; 112.50; 412.50]%Q /\
  (forall jobs : nat, @aria_cost R _ jobs = @forte_cost R _ jobs / 2) /\
  (forall jobs : nat, @forte_cost R _ jobs = 25 * INR jobs).
Proof.
  split; [reflexivity|]. split; [reflexivity|]. split; [reflexivity|].
  split; [reflexivity|].
  split; [vm_compute; reflexivity|]. split; [vm_compute; reflexivity|].
  split; intros jobs; unfold aria_cost, forte_cost; rewrite !of_nat_R;
    real_ops; lra.
Qed.

(** ** Symmetry about the operating point *)

(** X23.  The correlation [C_qc], the efficiency and the
    error-propagation multiplier of [generate_figures.py] take the same
    value at [q] and at [1 - q]; the propagated error bar does too. *)
Theorem mirror_symmetry (q : R) :
  c_qc (1 - q) = c_qc q /\
  efficiency (1 - q) = efficiency q /\
  dCdq (1 - q) = dCdq q /\
  (forall n_shots : nat, cqc_err n_shots (1 - q) = cqc_err n_shots q).
Proof.
  assert (Hd : dCdq (1 - q) = dCdq q).
  { rewrite !dCdq_R, c_qc_mirror.
    replace (1 - 2 * (1 - q)) with (- (1 - 2 * q)) by lra.
    rewrite Rabs_Ropp. reflexivity. }
  split; [apply c_qc_mirror|]. split; [rewrite !efficiency_R; lra|].
  split; [exact Hd|].
  intros n_shots. unfold cqc_err. rewrite Hd. f_equal.
  unfold q_err. real_ops. f_equal. f_equal. lra.
Qed.
